(** * meshio.h5m_io: reading and writing H5M mesh containers

    A shallow embedding of [src/meshio/h5m_io.py]: the flag decoder
    [_int_to_bool_list], the reader [read] and the writer [write], over a
    typed model of the HDF5 tree the two functions walk.  Python
    exceptions are values of [exn]; a function that may raise returns a
    [result]. *)

From Stdlib Require Import ZArith String Ascii List Lia Bool.
From stdpp Require Import base option list strings gmap fin_maps.

Local Open Scope string_scope.
Local Open Scope Z_scope.

(** ** Exceptions and results *)

Inductive pykey :=
  | KStr (s : string)
  | KInt (z : Z).

Inductive exn :=
  | KeyError (k : pykey)
  | IndexError
  | ValueError
  | TypeError
  | AssertionError
  | RuntimeError (msg : string)
  | Unmodelled (what : string).

Inductive result (A : Type) :=
  | Ok (a : A)
  | Err (e : exn).
Arguments Ok {A} a.
Arguments Err {A} e.

Definition rbind {A B} (r : result A) (k : A -> result B) : result B :=
  match r with
  | Ok a => k a
  | Err e => Err e
  end.

Declare Scope result_scope.
Notation "'let*' x ':=' e 'in' k" := (rbind e (fun x => k))
  (at level 10, x name, e at level 100, k at level 200) : result_scope.
Notation "'let*' ' p ':=' e 'in' k" := (rbind e (fun p => k))
  (at level 10, p pattern, e at level 100, k at level 200) : result_scope.
Delimit Scope result_scope with result.
Local Open Scope result_scope.

(** [d[key]] on a group: [KeyError] when the child is missing. *)
Definition getkey {A} (key : string) (o : option A) : result A :=
  match o with
  | Some a => Ok a
  | None => Err (KeyError (KStr key))
  end.

(** [l[i]] on a sequence with a constant, non-negative index. *)
Definition getitem {A} (l : list A) (i : nat) : result A :=
  match l !! i with
  | Some a => Ok a
  | None => Err IndexError
  end.

(** ** [_int_to_bool_list] (lines 15-18) *)

Fixpoint bin_digits_pos (p : positive) (acc : string) : string :=
  match p with
  | xH => String "1" acc
  | xO p' => bin_digits_pos p' (String "0" acc)
  | xI p' => bin_digits_pos p' (String "1" acc)
  end.

(** The digits of [format(n, 'b')] for a natural number. *)
Definition bin_digits (n : N) : string :=
  match n with
  | N0 => "0"
  | Npos p => bin_digits_pos p ""
  end.

Fixpoint zeros (n : nat) : string :=
  match n with
  | O => ""
  | S n' => String "0" (zeros n')
  end.

Definition zfill (width : nat) (s : string) : string :=
  String.append (zeros (width - String.length s)) s.

(** [format(num, '04b')]: sign, then the binary digits padded with zeros
    so that the whole string, sign included, has at least four
    characters. *)
Definition format_04b (num : Z) : string :=
  let digits := bin_digits (Z.abs_N num) in
  if num <? 0 then String "-" (zfill 3 digits) else zfill 4 digits.

(** [[x == '1' for x in bin_string[::-1]]] *)
Definition _int_to_bool_list (num : Z) : list bool :=
  let bin_string := format_04b num in
  map (fun x => Ascii.eqb x "1"%char) (rev (list_ascii_of_string bin_string)).

(** ** numpy arrays

    An array is its dtype, its shape and its elements in row-major order.
    Integer elements are their values; the elements of a floating-point
    array are kept as bit patterns, since [read] and [write] only move
    them.  Array extents are [npy_intp] values, so every counter derived
    from them below stays under [2^64]. *)

Inductive dtype :=
  | Int (bits : positive)
  | UInt (bits : positive)
  | Float (bits : positive).

Record ndarray := {
  adtype : dtype;
  shape : list nat;
  data : list Z
}.

(** [len(a)]: the first extent; a 0-d array has no [len]. *)
Definition len (a : ndarray) : result nat :=
  match shape a with
  | n :: _ => Ok n
  | [] => Err TypeError
  end.

(** [a.shape[i]] *)
Definition shape_at (a : ndarray) (i : nat) : result nat :=
  getitem (shape a) i.

(** The values a fixed-width integer dtype can hold, and the wrap-around
    of an integer result into that dtype. *)
Definition in_dtype (dt : dtype) (z : Z) : Prop :=
  match dt with
  | Int b => - 2 ^ (Z.pos b - 1) <= z < 2 ^ (Z.pos b - 1)
  | UInt b => 0 <= z < 2 ^ Z.pos b
  | Float _ => True
  end.

Definition wrap (dt : dtype) (z : Z) : Z :=
  match dt with
  | Int b => (z + 2 ^ (Z.pos b - 1)) mod 2 ^ Z.pos b - 2 ^ (Z.pos b - 1)
  | UInt b => z mod 2 ^ Z.pos b
  | Float _ => z
  end.

Definition is_integer (dt : dtype) : bool :=
  match dt with
  | Float _ => false
  | _ => true
  end.

(** [a + c] for an integer array [a] and a Python integer [c]: the dtype
    of the array is kept and each sum wraps around.  Arithmetic on
    floating-point arrays is outside the model. *)
Definition add_scalar (a : ndarray) (c : Z) : result ndarray :=
  if is_integer (adtype a) then
    Ok {| adtype := adtype a; shape := shape a;
          data := map (fun x => wrap (adtype a) (x + c)) (data a) |}
  else Err (Unmodelled "floating-point arithmetic").

(** [numpy.empty(n, dtype=int)]: [n] elements of whatever the allocated
    memory holds; [junk i] is the value found at position [i]. *)
Definition numpy_empty (junk : nat -> Z) (n : nat) : ndarray :=
  {| adtype := Int 64; shape := [n]; data := map junk (seq 0 n) |}.

(** ** The HDF5 tree of an H5M file

    Groups are records of their known children, each optional; a group
    of arbitrarily named children is a map from names.  Names are single
    path components. *)

Inductive h5type :=
  | Plain (dt : dtype)
  | Subarray (dt : dtype) (dims : list nat).

(** The type an attribute is stored with: left to h5py, a numpy type
    code, or an enumeration over a base type. *)
Inductive attr_type :=
  | Inferred
  | Code (c : string)
  | Enum (base : string) (members : list (string * Z)).

Record attr := {
  attr_dtype : attr_type;
  attr_value : Z
}.

Record dataset := {
  ds_type : h5type;
  ds_shape : list nat;
  ds_data : list Z;
  ds_attrs : gmap string attr
}.

Record nodes_group := {
  coordinates : option dataset;
  nodes_tags : option (gmap string dataset)
}.

Record elem_group := {
  elem_attrs : gmap string attr;
  connectivity : option dataset;
  elem_tags : option (gmap string dataset)
}.

(** [tstt/sets]: [contents] is a flat integer array, [list] has one row
    of integers per set, and every child of [tags] holds one integer per
    set. *)
Record sets_group := {
  contents : option (list Z);
  list_ : option (list (list Z));
  sets_tags : option (gmap string (list Z))
}.

Record tag_group := {
  tag_type : h5type;
  tag_attrs : gmap string attr
}.

Record tstt_group := {
  tstt_attrs : gmap string attr;
  nodes : option nodes_group;
  tags : option (gmap string tag_group);
  elements : option (gmap string elem_group);
  elemtypes : option attr_type;
  history : option (list string);
  sets : option sets_group
}.

Record h5file := {
  tstt : option tstt_group
}.

(** [g.create_dataset(name, data=a)] and [d[()]]. *)
Definition create_dataset (a : ndarray) : dataset :=
  {| ds_type := Plain (adtype a); ds_shape := shape a; ds_data := data a;
     ds_attrs := ∅ |}.

Definition dataset_value (d : dataset) : ndarray :=
  match ds_type d with
  | Plain dt => {| adtype := dt; shape := ds_shape d; data := ds_data d |}
  | Subarray dt dims =>
      {| adtype := dt; shape := ds_shape d ++ dims; data := ds_data d |}
  end.

(** [d.attrs.create(name, value)] *)
Definition attrs_create (name : string) (a : attr) (d : dataset) : dataset :=
  {| ds_type := ds_type d; ds_shape := ds_shape d; ds_data := ds_data d;
     ds_attrs := <[name := a]> (ds_attrs d) |}.

(** ** [write] (lines 109-226) *)

Definition int_attr (v : Z) : attr :=
  {| attr_dtype := Inferred; attr_value := v |}.

(** Lines 141-150: a flat array is stored as it is; an n-by-k array is
    stored as n entries of a k-tuple type; [n, k = data.shape] fails for
    any other number of dimensions. *)
Definition point_tag_dataset (data_ : ndarray) : result (dataset * h5type) :=
  match shape data_ with
  | [_] => Ok (create_dataset data_, Plain (adtype data_))
  | [n; k] =>
      let ty := Subarray (adtype data_) [k] in
      Ok ({| ds_type := ty; ds_shape := [n]; ds_data := data data_;
             ds_attrs := ∅ |}, ty)
  | _ => Err ValueError
  end.

(** Lines 140-168: the loop over [point_data.items()], filling the tag
    group of the nodes and the global tag registry. *)
Definition write_point_data (point_data : gmap string ndarray)
  : result (gmap string dataset * gmap string tag_group) :=
  map_fold
    (fun key data_ acc =>
       let* '(tags_, tstt_tags) := acc in
       let* '(dset, ty) := point_tag_dataset data_ in
       let g := {| tag_type := ty; tag_attrs := {["class" := int_attr 2]} |} in
       Ok (<[key := dset]> tags_, <[key := g]> tstt_tags))
    (Ok (∅, ∅)) point_data.

(** Lines 216-217: the loop over [cell_data.items()]. *)
Definition write_cell_data (cell_data : gmap string ndarray)
  : gmap string dataset :=
  map_fold (fun key value tags_ => <[key := create_dataset value]> tags_)
    ∅ cell_data.

(** Lines 173-186 *)
Definition elem_dt : attr_type :=
  Enum "i"
    [("Edge", 1); ("Tri", 2); ("Quad", 3); ("Polygon", 4); ("Tet", 5);
     ("Pyramid", 6); ("Prism", 7); ("Knife", 8); ("Hex", 9);
     ("Polyhedron", 10)].

(** Lines 200-204: number of nodes to h5m name and element type. *)
Definition h5m_type : gmap nat (string * Z) :=
  <[2%nat := ("Edge2", 1)]>
    (<[3%nat := ("Tri3", 2)]> (<[4%nat := ("Tet4", 5)]> ∅)).

Definition module_name : string := "meshio.h5m_io".

(** [version] is [meshio.__version__] and [now] is [str(datetime.now())]
    at the time of the call. *)
Definition write (version now : string) (points cells : ndarray)
    (point_data cell_data field_data : option (gmap string ndarray))
  : result h5file :=
  let global_id := 1 in
  let coords :=
    attrs_create "start_id" (int_attr global_id) (create_dataset points) in
  let* n := len points in
  let global_id := global_id + Z.of_nat n in
  let* '(node_tags, tstt_tags) :=
    match point_data with
    | Some pd => let* '(t, g) := write_point_data pd in Ok (Some t, g)
    | None => Ok (None, ∅)
    end in
  let history_ := [module_name; version; now] in
  let* width := shape_at cells 1 in
  let* this_type :=
    match h5m_type !! width with
    | Some ty => Ok ty
    | None => Err (KeyError (KInt (Z.of_nat width)))
    end in
  let element_type := {| attr_dtype := elem_dt; attr_value := this_type.2 |} in
  let* cells1 := add_scalar cells 1 in
  let conn :=
    attrs_create "start_id" (int_attr global_id) (create_dataset cells1) in
  let* m := len cells in
  let global_id := global_id + Z.of_nat m in
  let cell_tags :=
    match cell_data with
    | Some cd =>
        if decide (size cd = 0%nat) then None else Some (write_cell_data cd)
    | None => None
    end in
  let elem_group_ :=
    {| elem_attrs := {["element_type" := element_type]};
       connectivity := Some conn;
       elem_tags := cell_tags |} in
  let sets_ :=
    {| contents := None; list_ := None; sets_tags := Some ∅ |} in
  let max_id := {| attr_dtype := Code "u8"; attr_value := global_id |} in
  Ok {| tstt := Some
        {| tstt_attrs := {["max_id" := max_id]};
           nodes := Some {| coordinates := Some coords;
                            nodes_tags := node_tags |};
           tags := Some tstt_tags;
           elements := Some {[this_type.1 := elem_group_]};
           elemtypes := Some elem_dt;
           history := Some history_;
           sets := Some sets_ |} |}.

(** ** Python and numpy indexing used by [read] *)

(** The bound of a slice with a positive step, as Python adjusts it
    against a sequence of length [n]: a negative bound counts from the
    end, and the result is clamped to [0..n]. *)
Definition slice_index (n : nat) (i : Z) : nat :=
  if i <? 0 then Z.to_nat (Z.max 0 (i + Z.of_nat n))
  else Z.to_nat (Z.min i (Z.of_nat n)).

(** [l[start:stop]] *)
Definition py_slice {A} (l : list A) (start stop : Z) : list A :=
  let a := slice_index (length l) start in
  let b := slice_index (length l) stop in
  take (b - a) (drop a l).

Fixpoint every_other {A} (l : list A) : list A :=
  match l with
  | [] => []
  | x :: rest =>
      x :: match rest with
           | [] => []
           | _ :: rest' => every_other rest'
           end
  end.

(** [l[start:stop:2]] *)
Definition py_slice2 {A} (l : list A) (start stop : Z) : list A :=
  every_other (py_slice l start stop).

(** [range(a, b)] *)
Definition py_range (a b : Z) : list Z :=
  map (fun i => a + Z.of_nat i) (seq 0 (Z.to_nat (b - a))).

(** [arr[i0:i1] = v] *)
Definition slice_assign (arr : list Z) (i0 i1 : Z) (v : Z) : list Z :=
  let a := slice_index (length arr) i0 in
  let b := slice_index (length arr) i1 in
  imap (fun j x => if decide (a <= j < b)%nat then v else x) arr.

(** The position a valid index denotes: a negative one counts from the
    end. *)
Definition item_index (n : nat) (i : Z) : nat :=
  Z.to_nat (if i <? 0 then i + Z.of_nat n else i).

Definition valid_index (n : nat) (i : Z) : bool :=
  (- Z.of_nat n <=? i) && (i <? Z.of_nat n).

(** [arr[idx] = v] for an integer array [idx]: every index is checked
    against the bounds first. *)
Definition index_assign (arr : list Z) (idx : list Z) (v : Z)
  : result (list Z) :=
  if forallb (valid_index (length arr)) idx then
    Ok (foldl (fun a i => <[item_index (length arr) i := v]> a) arr idx)
  else Err IndexError.

(** ** [read] (lines 21-106) *)

(** Lines 32-33 and 54-55: every dataset of a tag group, read whole. *)
Definition read_tags (tags_ : option (gmap string dataset))
  : gmap string ndarray :=
  match tags_ with
  | Some t =>
      map_fold (fun name dset acc => <[name := dataset_value dset]> acc) ∅ t
  | None => ∅
  end.

(** Lines 42-47 *)
Definition select_elems (elements_ : gmap string elem_group)
  : result elem_group :=
  match elements_ !! "Tri3" with
  | Some e => Ok e
  | None =>
      match elements_ !! "Tet4" with
      | Some e => Ok e
      | None => Err (RuntimeError "Need Tri3s or Tet4s.")
      end
  end.

(** The identifiers of a one-dimensional integer tag.  The arithmetic on
    identifiers below is that of the integers: file offsets and entity
    counts stay far inside the 64-bit range. *)
Definition int_vector (a : ndarray) : result (list Z) :=
  match shape a with
  | [_] =>
      if is_integer (adtype a) then Ok (data a)
      else Err (Unmodelled "floating-point identifiers")
  | _ => Err (Unmodelled "identifiers that are not one-dimensional")
  end.

(** Lines 90-99: the runs of a range-compressed row. *)
Fixpoint fill_runs (cell_start_gid cell_end_gid : Z) (value : list Z)
    (k : nat) (arr : list Z) (runs : list (Z * Z)) : result (list Z) :=
  match runs with
  | [] => Ok arr
  | (start_gid, length_) :: rest =>
      let end_gid := start_gid + length_ - 1 in
      if (cell_start_gid <=? start_gid) && (end_gid <=? cell_end_gid) then
        let i0 := start_gid - cell_start_gid in
        let i1 := end_gid - cell_start_gid + 1 in
        let* v := getitem value k in
        fill_runs cell_start_gid cell_end_gid value k
          (slice_assign arr i0 i1 v) rest
      else Err (RuntimeError "")
  end.

(** Lines 82-104: the body of the loop over the rows of [sets/list]; the
    state is the array being filled and the cursor [end]. *)
Definition decode_row (sets_contents value : list Z)
    (cell_start_gid cell_end_gid : Z) (arr : list Z) (end_ : Z)
    (k : nat) (row : list Z) : result (list Z * Z) :=
  let* flags := getitem row 3 in
  let bits := _int_to_bool_list flags in
  let* is_range_compressed := getitem bits 3 in
  let* row0 := getitem row 0 in
  let* arr' :=
    if is_range_compressed : bool then
      let start_gids := py_slice2 sets_contents end_ (row0 + 1) in
      let lengths := py_slice2 sets_contents (end_ + 1) (row0 + 1) in
      fill_runs cell_start_gid cell_end_gid value k arr
        (zip start_gids lengths)
    else
      let gids := py_slice sets_contents end_ (row0 + 1) in
      let* v := getitem value k in
      index_assign arr (map (fun g => g - cell_start_gid) gids) v
  in
  Ok (arr', row0 + 1).

(** Lines 81-104: the loop over [enumerate(sets_list)]. *)
Fixpoint decode_rows (sets_contents value : list Z)
    (cell_start_gid cell_end_gid : Z) (arr : list Z) (end_ : Z)
    (k : nat) (rows : list (list Z)) : result (list Z) :=
  match rows with
  | [] => Ok arr
  | row :: rest =>
      let* '(arr', end') :=
        decode_row sets_contents value cell_start_gid cell_end_gid
          arr end_ k row in
      decode_rows sets_contents value cell_start_gid cell_end_gid
        arr' end' (S k) rest
  end.

Definition set_key (key : string) : string := String.append "set::" key.

(** Lines 77-104: the loop over [sets_tags.items()].  [junk mod_key] is
    what [numpy.empty] finds in the memory it hands out for [mod_key]. *)
Definition decode_sets (junk : string -> nat -> Z) (cells : ndarray)
    (sets_contents : list Z) (sets_list : list (list Z))
    (sets_tags_ : gmap string (list Z)) (cell_start_gid cell_end_gid : Z)
    (cell_data : gmap string ndarray) : result (gmap string ndarray) :=
  map_fold
    (fun key value acc =>
       let* cell_data := acc in
       let mod_key := set_key key in
       let* n := len cells in
       let fresh := numpy_empty (junk mod_key) n in
       let end_ := 0 in
       let* arr :=
         decode_rows sets_contents value cell_start_gid cell_end_gid
           (data fresh) end_ 0 sets_list in
       Ok (<[mod_key := {| adtype := adtype fresh; shape := shape fresh;
                           data := arr |}]> cell_data))
    (Ok cell_data) sets_tags_.

(** Line 74: [all(cell_gids == range(cell_start_gid, cell_end_gid + 1))];
    both sides have [len(cell_gids)] elements. *)
Definition gids_contiguous (cell_start_gid cell_end_gid : Z)
    (cell_gids : list Z) : bool :=
  forallb (fun p => fst p =? snd p)
    (zip cell_gids (py_range cell_start_gid (cell_end_gid + 1))).

(** Lines 65-104 *)
Definition read_sets (junk : string -> nat -> Z) (dset : tstt_group)
    (elems : elem_group) (conn : dataset) (cells : ndarray)
    (cell_data : gmap string ndarray) : result (gmap string ndarray) :=
  match sets dset with
  | Some sets_ =>
      match contents sets_ with
      | Some sets_contents =>
          let* sets_list := getkey "list" (list_ sets_) in
          let* sets_tags_ := getkey "tags" (sets_tags sets_) in
          let* start_id := getkey "start_id" (ds_attrs conn !! "start_id") in
          let cell_start_gid := attr_value start_id in
          let* elem_tags_ := getkey "tags" (elem_tags elems) in
          let* global_id := getkey "GLOBAL_ID" (elem_tags_ !! "GLOBAL_ID") in
          let* ids := int_vector (dataset_value global_id) in
          let cell_gids := map (fun g => cell_start_gid + g) ids in
          let cell_end_gid :=
            cell_start_gid + Z.of_nat (length cell_gids) - 1 in
          if gids_contiguous cell_start_gid cell_end_gid cell_gids then
            decode_sets junk cells sets_contents sets_list sets_tags_
              cell_start_gid cell_end_gid cell_data
          else Err AssertionError
      | None => Ok cell_data
      end
  | None => Ok cell_data
  end.

Definition mesh : Type :=
  ndarray * ndarray * gmap string ndarray * gmap string ndarray
  * gmap string ndarray.

(** Lines 49-106: what [read] does with the element block it selected. *)
Definition read_elems (junk : string -> nat -> Z) (dset : tstt_group)
    (points : ndarray) (point_data : gmap string ndarray)
    (elems : elem_group) : result mesh :=
  let* conn := getkey "connectivity" (connectivity elems) in
  let* cells := add_scalar (dataset_value conn) (-1) in
  let cell_data := read_tags (elem_tags elems) in
  let field_data := ∅ in
  let* cell_data := read_sets junk dset elems conn cells cell_data in
  Ok (points, cells, point_data, cell_data, field_data).

Definition read (junk : string -> nat -> Z) (f : h5file) : result mesh :=
  let* dset := getkey "tstt" (tstt f) in
  let* nodes_ := getkey "nodes" (nodes dset) in
  let* coords := getkey "coordinates" (coordinates nodes_) in
  let points := dataset_value coords in
  let point_data := read_tags (nodes_tags nodes_) in
  let* elements_ := getkey "elements" (elements dset) in
  let* elems := select_elems elements_ in
  read_elems junk dset points point_data elems.

(** ** Vocabulary of the statements *)

Definition ndim (a : ndarray) : nat := length (shape a).

(** A per-entity scalar array or an n-by-k array. *)
Definition tag_shaped (a : ndarray) : Prop := ndim a = 1%nat \/ ndim a = 2%nat.

Definition tags_shaped (point_data : option (gmap string ndarray)) : Prop :=
  match point_data with
  | Some pd => map_Forall (fun _ a => tag_shaped a) pd
  | None => True
  end.

(** Lines 214-217: the tag group of the element block, created only for
    a non-empty [cell_data]. *)
Definition cell_tags_of (cell_data : option (gmap string ndarray))
  : option (gmap string dataset) :=
  match cell_data with
  | Some cd =>
      if decide (size cd = 0%nat) then None else Some (write_cell_data cd)
  | None => None
  end.

(** The container [r] holds exactly one element block, named [name], whose
    [element_type] attribute is [code], typed by the enumeration. *)
Definition written_block (r : result h5file) (name : string) (code : Z)
  : Prop :=
  exists f dset elems,
    r = Ok f /\
    tstt f = Some dset /\
    elements dset = Some {[name := elems]} /\
    elem_attrs elems !! "element_type"
    = Some {| attr_dtype := elem_dt; attr_value := code |}.

Definition need_tri3_or_tet4 : exn := RuntimeError "Need Tri3s or Tet4s.".

(** [r] is not the unsupported-mesh-type error. *)
Definition supported {A} (r : result A) : Prop := r <> Err need_tri3_or_tet4.

(** [gids] is the ascending run [start], [start + 1], ... *)
Definition contiguous_run (start : Z) (gids : list Z) : Prop :=
  forall i g, gids !! i = Some g -> g = start + Z.of_nat i.

(** What lines 25-72 of [read] collect from a container with a sets
    group with contents, before the assertion of line 74: the mesh read
    so far, the three parts of the sets group, the [start_id] of the
    connectivity and the GLOBAL_ID values of the selected block.  [None]
    when one of the lookups of those lines fails. *)
Record sets_input := {
  si_points : ndarray;
  si_cells : ndarray;
  si_point_data : gmap string ndarray;
  si_cell_data : gmap string ndarray;
  si_contents : list Z;
  si_list : list (list Z);
  si_tags : gmap string (list Z);
  si_start : Z;
  si_ids : list Z
}.

Definition result_ok {A} (r : result A) : option A :=
  match r with
  | Ok a => Some a
  | Err _ => None
  end.

Definition sets_input_of (f : h5file) : option sets_input :=
  dset ← tstt f;
  nodes_ ← nodes dset;
  coords ← coordinates nodes_;
  elements_ ← elements dset;
  elems ← result_ok (select_elems elements_);
  conn ← connectivity elems;
  cells ← result_ok (add_scalar (dataset_value conn) (-1));
  sets_ ← sets dset;
  sets_contents ← contents sets_;
  sets_list ← list_ sets_;
  sets_tags_ ← sets_tags sets_;
  start_id ← ds_attrs conn !! "start_id";
  elem_tags_ ← elem_tags elems;
  global_id ← elem_tags_ !! "GLOBAL_ID";
  ids ← result_ok (int_vector (dataset_value global_id));
  Some {| si_points := dataset_value coords;
          si_cells := cells;
          si_point_data := read_tags (nodes_tags nodes_);
          si_cell_data := read_tags (elem_tags elems);
          si_contents := sets_contents;
          si_list := sets_list;
          si_tags := sets_tags_;
          si_start := attr_value start_id;
          si_ids := ids |}.

(** [cell_gids] and [cell_end_gid] of lines 72-73. *)
Definition cell_gids (si : sets_input) : list Z :=
  map (fun g => si_start si + g) (si_ids si).

Definition cell_end_gid (si : sets_input) : Z :=
  si_start si + Z.of_nat (length (cell_gids si)) - 1.

(** The flag [read] tests on a row, and the two readings of the slice of
    [sets/contents] that belongs to a row processed with cursor [end_]. *)
Definition range_compressed (row : list Z) : bool :=
  nth 3 (_int_to_bool_list (nth 3 row 0)) false.

Definition row_end (row : list Z) : Z := nth 0 row 0.

Definition runs_of (sets_contents : list Z) (end_ : Z) (row : list Z)
  : list (Z * Z) :=
  zip (py_slice2 sets_contents end_ (row_end row + 1))
      (py_slice2 sets_contents (end_ + 1) (row_end row + 1)).

Definition gids_of (sets_contents : list Z) (end_ : Z) (row : list Z)
  : list Z :=
  py_slice sets_contents end_ (row_end row + 1).

(** Cell [j] of the block starting at [cell_start_gid] lies in the run. *)
Definition run_covers (cell_start_gid : Z) (j : nat) (run : Z * Z) : bool :=
  (fst run - cell_start_gid <=? Z.of_nat j)
  && (Z.of_nat j <=? fst run + snd run - 1 - cell_start_gid).

(** Cell [j] is a member of the set the row describes. *)
Definition row_covers (sets_contents : list Z) (cell_start_gid : Z)
    (end_ : Z) (row : list Z) (j : nat) : bool :=
  if range_compressed row then
    existsb (run_covers cell_start_gid j) (runs_of sets_contents end_ row)
  else
    existsb (fun g => g - cell_start_gid =? Z.of_nat j)
      (gids_of sets_contents end_ row).

(** The cursor with which row [i] of [rows] is processed when the first
    row is processed with [end_]. *)
Definition cursor_from (end_ : Z) (rows : list (list Z)) (i : nat) : Z :=
  match i with
  | O => end_
  | S i' =>
      match rows !! i' with
      | Some row => row_end row + 1
      | None => 0
      end
  end.

Definition cursor (rows : list (list Z)) (i : nat) : Z :=
  cursor_from 0 rows i.

(** A row that names cells of the block only: four fields, and every run
    (of non-negative length) or every listed identifier lies inside
    [cell_start_gid .. cell_start_gid + M - 1]. *)
Definition row_in_block (sets_contents : list Z) (cell_start_gid : Z)
    (M : nat) (end_ : Z) (row : list Z) : Prop :=
  (4 <= length row)%nat /\
  if range_compressed row then
    Forall (fun run => cell_start_gid <= fst run /\ 0 <= snd run /\
                       fst run + snd run - 1
                       <= cell_start_gid + Z.of_nat M - 1)
      (runs_of sets_contents end_ row)
  else
    Forall (fun g => cell_start_gid <= g <= cell_start_gid + Z.of_nat M - 1)
      (gids_of sets_contents end_ row).

Definition rows_in_block (sets_contents : list Z) (cell_start_gid : Z)
    (M : nat) (rows : list (list Z)) : Prop :=
  forall i row, rows !! i = Some row ->
    row_in_block sets_contents cell_start_gid M (cursor rows i) row.

(** What the loop over the rows leaves at position [j], starting from
    [cur]: the value of the last row that covers [j]. *)
Fixpoint label (sets_contents value : list Z) (cell_start_gid : Z) (j : nat)
    (cur : Z) (end_ : Z) (k : nat) (rows : list (list Z)) : Z :=
  match rows with
  | [] => cur
  | row :: rest =>
      let cur' :=
        if row_covers sets_contents cell_start_gid end_ row j
        then nth k value 0 else cur in
      label sets_contents value cell_start_gid j cur' (row_end row + 1)
        (S k) rest
  end.

(** Position [j] of an array of length [n] is one of those the valid
    indices [idx] denote. *)
Definition assigned (n : nat) (idx : list Z) (j : nat) : bool :=
  existsb (fun i => Nat.eqb (item_index n i) j) idx.

Definition mesh_cell_data (m : mesh) : gmap string ndarray := snd (fst m).

Definition is_one (x : ascii) : bool := Ascii.eqb x "1"%char.

Fixpoint pos_bits (p : positive) : list bool :=
  match p with
  | xH => [true]
  | xO p' => false :: pos_bits p'
  | xI p' => true :: pos_bits p'
  end.

(** The type [write] registers for a point tag. *)
Definition tag_type_of (a : ndarray) : h5type :=
  match shape a with
  | [_; k] => Subarray (adtype a) [k]
  | _ => Plain (adtype a)
  end.

Definition registry_entry (a : ndarray) : tag_group :=
  {| tag_type := tag_type_of a; tag_attrs := {["class" := int_attr 2]} |}.

(** [r] raises nothing but exceptions of the class [S]. *)
Definition raises_only {A} (S : exn -> Prop) (r : result A) : Prop :=
  forall e, r = Err e -> S e.

(** What the loop over the rows can raise. *)
Definition row_error (e : exn) : Prop :=
  e = IndexError \/ e = RuntimeError "".



(** ** Example meshes and containers *)

(** Four points, and a container with three triangles on them whose
    sets group is filled in by hand. *)
Definition ex_points : ndarray :=
  {| adtype := Float 64; shape := [4%nat; 3%nat];
     data := [0; 0; 0; 1; 0; 0; 0; 1; 0; 1; 1; 0] |}.

Definition ex_cells : ndarray :=
  {| adtype := Int 64; shape := [3%nat; 3%nat];
     data := [0; 1; 2; 1; 2; 3; 0; 2; 3] |}.

Definition ex_edges : ndarray :=
  {| adtype := Int 64; shape := [2%nat; 2%nat]; data := [0; 1; 1; 2] |}.

Definition ex_point_data : gmap string ndarray :=
  <["u" := {| adtype := Float 64; shape := [4%nat]; data := [1; 2; 3; 4] |}]>
    {["v" := {| adtype := Int 32; shape := [4%nat; 2%nat];
                data := [1; 2; 3; 4; 5; 6; 7; 8] |}]}.

Definition ex_cell_data : gmap string ndarray :=
  {["a" := {| adtype := Int 64; shape := [3%nat]; data := [10; 20; 30] |}]}.

Definition ex_conn : ndarray :=
  {| adtype := Int 64; shape := [3%nat; 3%nat];
     data := [1; 2; 3; 2; 3; 4; 1; 3; 4] |}.

Definition ex_block (ids : list Z) : elem_group :=
  {| elem_attrs := ∅;
     connectivity :=
       Some (attrs_create "start_id" (int_attr 5) (create_dataset ex_conn));
     elem_tags :=
       Some {["GLOBAL_ID" :=
                create_dataset {| adtype := Int 64; shape := [length ids];
                                  data := ids |}]} |}.

Definition partition_file (ids sets_contents : list Z)
    (sets_list : list (list Z)) (sets_tags_ : gmap string (list Z))
  : h5file :=
  {| tstt := Some
       {| tstt_attrs := ∅;
          nodes := Some
            {| coordinates :=
                 Some (attrs_create "start_id" (int_attr 1)
                         (create_dataset ex_points));
               nodes_tags := None |};
          tags := Some ∅;
          elements := Some {["Tri3" := ex_block ids]};
          elemtypes := None;
          history := None;
          sets := Some {| contents := Some sets_contents;
                          list_ := Some sets_list;
                          sets_tags := Some sets_tags_ |} |} |}.

Definition partition_input (ids sets_contents : list Z)
    (sets_list : list (list Z)) (sets_tags_ : gmap string (list Z))
  : sets_input :=
  {| si_points := ex_points;
     si_cells := ex_cells;
     si_point_data := ∅;
     si_cell_data :=
       {["GLOBAL_ID" := {| adtype := Int 64; shape := [length ids];
                           data := ids |}]};
     si_contents := sets_contents;
     si_list := sets_list;
     si_tags := sets_tags_;
     si_start := 5;
     si_ids := ids |}.

(** Cells 5 and 6 as one run; cells 5 and 7 listed; the point 4 listed. *)
Definition run_file : h5file :=
  partition_file [0; 1; 2] [5; 2] [[1; -1; -1; 10]] {["P" := [9]]}.

Definition listed_file : h5file :=
  partition_file [0; 1; 2] [5; 7] [[1; -1; -1; 2]] {["P" := [9]]}.

Definition point_row_file : h5file :=
  partition_file [0; 1; 2] [4] [[0; -1; -1; 2]] {["P" := [9]]}.

Definition point_run_file : h5file :=
  partition_file [0; 1; 2] [4; 1] [[1; -1; -1; 10]] {["P" := [9]]}.

Definition one_based_file : h5file :=
  partition_file [1; 2; 3] [5; 2] [[1; -1; -1; 10]] {["P" := [9]]}.

Definition sevens (_ : string) (_ : nat) : Z := 7.

(** A group of element blocks of both kinds, and a container around a
    given group. *)
Definition two_blocks : gmap string elem_group :=
  <["Tet4" := {| elem_attrs := ∅; connectivity := None; elem_tags := None |}]>
    {["Tri3" := ex_block [0; 1; 2]]}.

Definition file_with_elements (elements_ : gmap string elem_group) : h5file :=
  {| tstt := Some
       {| tstt_attrs := ∅;
          nodes := Some {| coordinates := Some (create_dataset ex_points);
                           nodes_tags := None |};
          tags := None;
          elements := Some elements_;
          elemtypes := None;
          history := None;
          sets := None |} |}.

(** A tag with three dimensions, cells of row width 5, and a container
    whose one run covers all three cells. *)
Definition ex_volume_tag : ndarray :=
  {| adtype := Float 64; shape := [4%nat; 2%nat; 2%nat];
     data := [0; 1; 2; 3; 4; 5; 6; 7; 8; 9; 10; 11; 12; 13; 14; 15] |}.


Definition full_run_file : h5file :=
  partition_file [0; 1; 2] [5; 3] [[1; -1; -1; 10]] {["P" := [9]]}.

(** What [read] returns for [run_file] when the memory holds sevens. *)
Definition run_cell_data : gmap string ndarray :=
  <["set::P" := {| adtype := Int 64; shape := [3%nat]; data := [9; 9; 7] |}]>
    {["GLOBAL_ID" := {| adtype := Int 64; shape := [3%nat];
                        data := [0; 1; 2] |}]}.

Definition run_mesh : mesh := (ex_points, ex_cells, ∅, run_cell_data, ∅).

(** * Properties *)

(** ** The flag decoder *)

(** C9: for [0 <= num < 16] the decoder returns exactly four booleans,
    and the one at position [i] tells whether bit [i] of [num] is set,
    least significant bit first; position 3, bit 3, is the flag the set
    decoder reads from the fourth field of a row. *)
Theorem int_to_bool_list_bits (num : Z) :
  0 <= num < 16 ->
  _int_to_bool_list num
  = [Z.testbit num 0; Z.testbit num 1; Z.testbit num 2; Z.testbit num 3] /\
  forall row, nth 3 row 0 = num -> range_compressed row = Z.testbit num 3.
Proof.
  intros [Hlo Hhi].
  assert (Hbits : _int_to_bool_list num
    = [Z.testbit num 0; Z.testbit num 1; Z.testbit num 2; Z.testbit num 3]).
  { destruct num as [|p|p]; [reflexivity| |lia].
    do 4 (destruct p as [p|p|]; try lia; try reflexivity). }
  split; [exact Hbits|].
  intros row Hrow. unfold range_compressed. rewrite Hrow, Hbits. reflexivity.
Qed.

Lemma int_to_bool_list_bits_witness :
  0 <= 9 < 16 /\
  _int_to_bool_list 9 = [true; false; false; true] /\
  range_compressed [1; -1; -1; 9] = true.
Proof.
  split; [lia|].
  destruct (int_to_bool_list_bits 9 ltac:(lia)) as [Hbits Hflag].
  split; [exact Hbits|]. exact (Hflag [1; -1; -1; 9] eq_refl).
Defined.

(** ** Arithmetic of the connectivity shift *)

Lemma wrap_in_dtype (dt : dtype) (z : Z) :
  in_dtype dt z -> wrap dt z = z.
Proof.
  destruct dt as [b|b|b]; simpl; intros H; [| |reflexivity].
  - assert (Hm : 2 ^ Z.pos b = 2 * 2 ^ (Z.pos b - 1)).
    { rewrite <- Z.pow_succ_r by lia. f_equal. lia. }
    rewrite Z.mod_small by lia. lia.
  - apply Z.mod_small. lia.
Qed.

Lemma wrap_shift (dt : dtype) (z c : Z) :
  is_integer dt = true ->
  wrap dt (wrap dt (z + c) + - c) = wrap dt z.
Proof.
  destruct dt as [b|b|b]; simpl; intros Hi; [| |discriminate].
  - f_equal.
    replace ((z + c + 2 ^ (Z.pos b - 1)) mod 2 ^ Z.pos b
             - 2 ^ (Z.pos b - 1) + - c + 2 ^ (Z.pos b - 1))
      with ((z + c + 2 ^ (Z.pos b - 1)) mod 2 ^ Z.pos b - c) by lia.
    rewrite Zminus_mod_idemp_l. f_equal. lia.
  - replace ((z + c) mod 2 ^ Z.pos b + - c)
      with ((z + c) mod 2 ^ Z.pos b - c) by lia.
    rewrite Zminus_mod_idemp_l. f_equal. lia.
Qed.

Lemma add_scalar_cancel (a : ndarray) (c : Z) :
  is_integer (adtype a) = true ->
  Forall (in_dtype (adtype a)) (data a) ->
  exists a1, add_scalar a c = Ok a1 /\ add_scalar a1 (- c) = Ok a.
Proof.
  intros Hi Hr. unfold add_scalar. rewrite Hi. eexists. split; [reflexivity|].
  simpl. rewrite Hi. destruct a as [dt sh d]; simpl in *. f_equal. f_equal.
  induction Hr as [|z d Hz _ IH]; simpl; [reflexivity|].
  rewrite IH. f_equal. rewrite wrap_shift by assumption.
  apply wrap_in_dtype, Hz.
Qed.

(** ** The loops over tag dictionaries *)

Lemma dataset_value_create (a : ndarray) :
  dataset_value (create_dataset a) = a.
Proof. destruct a; reflexivity. Qed.

Lemma dataset_value_attrs_create (name : string) (v : attr) (d : dataset) :
  dataset_value (attrs_create name v d) = dataset_value d.
Proof. reflexivity. Qed.

Lemma point_tag_dataset_value (a : ndarray) :
  tag_shaped a ->
  exists d ty, point_tag_dataset a = Ok (d, ty) /\ dataset_value d = a.
Proof.
  destruct a as [dt sh d]. unfold tag_shaped, ndim, point_tag_dataset. simpl.
  destruct sh as [|n [|k [|? ?]]]; simpl; intros [H|H]; try discriminate;
    eexists _, _; (split; [reflexivity|]); reflexivity.
Qed.

Lemma write_cell_data_fmap (cell_data : gmap string ndarray) :
  write_cell_data cell_data = create_dataset <$> cell_data.
Proof.
  unfold write_cell_data.
  apply (map_fold_weak_ind (fun r m => r = create_dataset <$> m)).
  - by rewrite fmap_empty.
  - intros i x m r _ ->. by rewrite fmap_insert.
Qed.

Lemma read_tags_fmap (t : gmap string dataset) :
  read_tags (Some t) = dataset_value <$> t.
Proof.
  unfold read_tags.
  apply (map_fold_weak_ind (fun r m => r = dataset_value <$> m)).
  - by rewrite fmap_empty.
  - intros i x m r _ ->. by rewrite fmap_insert.
Qed.

Lemma read_write_cell_data (cell_data : gmap string ndarray) :
  read_tags (Some (write_cell_data cell_data)) = cell_data.
Proof.
  rewrite read_tags_fmap, write_cell_data_fmap, <- map_fmap_compose.
  rewrite <- (map_fmap_id cell_data) at 2. apply map_fmap_ext.
  intros i x _. apply dataset_value_create.
Qed.

Lemma write_point_data_ok (point_data : gmap string ndarray) :
  map_Forall (fun _ a => tag_shaped a) point_data ->
  exists t g, write_point_data point_data = Ok (t, g)
              /\ dataset_value <$> t = point_data.
Proof.
  unfold write_point_data.
  apply (map_fold_weak_ind (fun r m =>
    map_Forall (fun _ a => tag_shaped a) m ->
    exists t g, r = Ok (t, g) /\ dataset_value <$> t = m)).
  - intros _. exists ∅, ∅. split; [reflexivity|]. by rewrite fmap_empty.
  - intros i x m r Hi IH Hall.
    apply map_Forall_insert in Hall as [Hx Hm]; [|assumption].
    destruct (IH Hm) as (t & g & -> & Ht).
    destruct (point_tag_dataset_value x Hx) as (d & ty & Hd & Hv).
    simpl. rewrite Hd. simpl. eexists _, _. split; [reflexivity|].
    by rewrite fmap_insert, Hv, Ht.
Qed.

(** ** The container [write] produces *)

Lemma len_of_shape_at (a : ndarray) (i w : nat) :
  shape_at a i = Ok w -> exists m, len a = Ok m.
Proof.
  unfold shape_at, getitem, len. destruct (shape a) as [|m sh].
  - destruct i; discriminate.
  - intros _. by exists m.
Qed.

Lemma read_tags_cell_tags_of (cell_data : option (gmap string ndarray)) :
  read_tags (cell_tags_of cell_data) = default ∅ cell_data.
Proof.
  destruct cell_data as [cd|]; simpl; [|reflexivity].
  destruct (decide (size cd = 0%nat)) as [Hz|Hz].
  - apply map_size_empty_inv in Hz. by subst.
  - apply read_write_cell_data.
Qed.

(** Symbolic evaluation of [write] on an input it accepts. *)
Lemma write_ok (version now : string) (points cells : ndarray)
    (point_data cell_data field_data : option (gmap string ndarray))
    (N M w : nat) (name : string) (code : Z) :
  len points = Ok N ->
  len cells = Ok M ->
  shape_at cells 1 = Ok w ->
  h5m_type !! w = Some (name, code) ->
  is_integer (adtype cells) = true ->
  tags_shaped point_data ->
  exists cells1 node_tags tstt_tags,
    add_scalar cells 1 = Ok cells1 /\
    read_tags node_tags = default ∅ point_data /\
    write version now points cells point_data cell_data field_data
    = Ok {| tstt := Some
        {| tstt_attrs :=
             {["max_id" := {| attr_dtype := Code "u8";
                              attr_value := 1 + Z.of_nat N + Z.of_nat M |}]};
           nodes := Some
             {| coordinates :=
                  Some (attrs_create "start_id" (int_attr 1)
                          (create_dataset points));
                nodes_tags := node_tags |};
           tags := Some tstt_tags;
           elements := Some
             {[name :=
                {| elem_attrs :=
                     {["element_type" := {| attr_dtype := elem_dt;
                                            attr_value := code |}]};
                   connectivity :=
                     Some (attrs_create "start_id"
                             (int_attr (1 + Z.of_nat N))
                             (create_dataset cells1));
                   elem_tags := cell_tags_of cell_data |}]};
           elemtypes := Some elem_dt;
           history := Some [module_name; version; now];
           sets := Some {| contents := None; list_ := None;
                           sets_tags := Some ∅ |} |} |}.
Proof.
  intros HN HM Hw Hty Hint Htags.
  assert (Hc1 : exists cells1, add_scalar cells 1 = Ok cells1).
  { unfold add_scalar. rewrite Hint. eauto. }
  destruct Hc1 as [cells1 Hc1].
  assert (Hpd : exists node_tags tstt_tags,
    match point_data with
    | Some pd => let* '(t, g) := write_point_data pd in Ok (Some t, g)
    | None => Ok (None, ∅)
    end = Ok (node_tags, tstt_tags)
    /\ read_tags node_tags = default ∅ point_data).
  { destruct point_data as [pd|]; simpl in *.
    - destruct (write_point_data_ok pd Htags) as (t & g & Hwr & Ht).
      exists (Some t), g. rewrite Hwr. split; [reflexivity|].
      rewrite read_tags_fmap. exact Ht.
    - exists None, ∅. split; reflexivity. }
  destruct Hpd as (node_tags & tstt_tags & Hpd & Hrd).
  exists cells1, node_tags, tstt_tags. split; [assumption|].
  split; [assumption|].
  unfold write. rewrite HN. simpl. rewrite Hpd. simpl.
  rewrite Hw. simpl. rewrite Hty. simpl. rewrite Hc1. simpl.
  rewrite HM. simpl. reflexivity.
Qed.

(** ** Reading what [write] wrote *)

Lemma h5m_type_lookup (w : nat) :
  h5m_type !! w
  = match w with
    | 2%nat => Some ("Edge2", 1)
    | 3%nat => Some ("Tri3", 2)
    | 4%nat => Some ("Tet4", 5)
    | _ => None
    end.
Proof.
  unfold h5m_type.
  do 5 (destruct w as [|w]; [by vm_compute|]).
  rewrite !lookup_insert_ne by lia. apply lookup_empty.
Qed.

Lemma select_elems_singleton (name : string) (eg : elem_group) :
  select_elems {[name := eg]}
  = if decide (name = "Tri3" \/ name = "Tet4") then Ok eg
    else Err (RuntimeError "Need Tri3s or Tet4s.").
Proof.
  unfold select_elems.
  destruct (decide (name = "Tri3")) as [->|H3].
  - rewrite lookup_singleton_eq. by rewrite decide_True by auto.
  - rewrite lookup_singleton_ne by assumption.
    destruct (decide (name = "Tet4")) as [->|H4].
    + rewrite lookup_singleton_eq. by rewrite decide_True by auto.
    + rewrite lookup_singleton_ne by assumption.
      rewrite decide_False; [reflexivity|]. intros [?|?]; congruence.
Qed.

(** C1: a mesh with cells of row width 3 or 4 and tags that are flat or
    n-by-k arrays (or no tags at all) is written to a fresh container,
    and reading that container returns the same points, the same cells
    (the shift by one on writing and back on reading cancels, wrap-around
    included) and the same tag arrays; with no tags written, both
    returned tag mappings are empty. *)
Theorem write_read_roundtrip (version now : string) (junk : string -> nat -> Z)
    (points cells : ndarray)
    (point_data cell_data field_data : option (gmap string ndarray))
    (N w : nat) :
  len points = Ok N ->
  shape_at cells 1 = Ok w ->
  w = 3%nat \/ w = 4%nat ->
  is_integer (adtype cells) = true ->
  Forall (in_dtype (adtype cells)) (data cells) ->
  tags_shaped point_data ->
  exists f,
    write version now points cells point_data cell_data field_data = Ok f /\
    read junk f
    = Ok (points, cells, default ∅ point_data, default ∅ cell_data, ∅).
Proof.
  intros HN Hw Hw34 Hint Hrange Htags.
  destruct (len_of_shape_at _ _ _ Hw) as [M HM].
  assert (Hty : exists name code, h5m_type !! w = Some (name, code)
                 /\ (name = "Tri3" \/ name = "Tet4")).
  { rewrite h5m_type_lookup. destruct Hw34 as [->| ->]; eauto 6. }
  destruct Hty as (name & code & Hty & Hname).
  destruct (write_ok version now points cells point_data cell_data field_data
              N M w name code HN HM Hw Hty Hint Htags)
    as (cells1 & node_tags & tstt_tags & Hc1 & Hpd & Hwrite).
  eexists. split; [exact Hwrite|].
  destruct (add_scalar_cancel cells 1 Hint Hrange) as (c1 & Hc1' & Hback).
  rewrite Hc1 in Hc1'. injection Hc1' as <-.
  change (- (1)) with (-1) in Hback.
  unfold read. cbn [tstt nodes coordinates nodes_tags elements getkey rbind].
  rewrite select_elems_singleton, decide_True by assumption.
  unfold read_elems. cbn [rbind connectivity getkey elem_tags].
  rewrite dataset_value_attrs_create, !dataset_value_create, Hback.
  cbn [rbind]. unfold read_sets. cbn [sets contents rbind].
  by rewrite Hpd, read_tags_cell_tags_of, dataset_value_attrs_create,
    dataset_value_create.
Qed.

Lemma ex_point_data_shaped : tags_shaped (Some ex_point_data).
Proof.
  apply map_Forall_insert_2; [left; reflexivity|].
  apply map_Forall_singleton. right. reflexivity.
Defined.

Lemma write_read_roundtrip_witness :
  exists f,
    write "1.0" "now" ex_points ex_cells (Some ex_point_data)
      (Some ex_cell_data) None = Ok f /\
    read sevens f
    = Ok (ex_points, ex_cells, ex_point_data, ex_cell_data, ∅).
Proof.
  apply (write_read_roundtrip "1.0" "now" sevens ex_points ex_cells
           (Some ex_point_data) (Some ex_cell_data) None 4 3).
  - reflexivity.
  - reflexivity.
  - left. reflexivity.
  - reflexivity.
  - repeat constructor; simpl; lia.
  - exact ex_point_data_shaped.
Defined.

(** C2: writing N points and M cells stores [start_id = 1] on the node
    coordinates, [start_id = 1 + N] on the element connectivity and
    [max_id = 1 + N + M], typed [u8], on the top-level group: the one
    global-ID counter starts at 1 and advances by N, then by M. *)
Theorem write_global_ids (version now : string) (points cells : ndarray)
    (point_data cell_data field_data : option (gmap string ndarray))
    (N M w : nat) :
  len points = Ok N ->
  len cells = Ok M ->
  shape_at cells 1 = Ok w ->
  w = 2%nat \/ w = 3%nat \/ w = 4%nat ->
  is_integer (adtype cells) = true ->
  tags_shaped point_data ->
  exists f dset nodes_ coords name elems conn,
    write version now points cells point_data cell_data field_data = Ok f /\
    tstt f = Some dset /\
    nodes dset = Some nodes_ /\
    coordinates nodes_ = Some coords /\
    ds_attrs coords !! "start_id" = Some (int_attr 1) /\
    elements dset = Some {[name := elems]} /\
    connectivity elems = Some conn /\
    ds_attrs conn !! "start_id" = Some (int_attr (1 + Z.of_nat N)) /\
    tstt_attrs dset !! "max_id"
    = Some {| attr_dtype := Code "u8";
              attr_value := 1 + Z.of_nat N + Z.of_nat M |}.
Proof.
  intros HN HM Hw Hw234 Hint Htags.
  assert (Hty : exists name code, h5m_type !! w = Some (name, code)).
  { rewrite h5m_type_lookup. destruct Hw234 as [->|[->| ->]]; eauto. }
  destruct Hty as (name & code & Hty).
  destruct (write_ok version now points cells point_data cell_data field_data
              N M w name code HN HM Hw Hty Hint Htags)
    as (cells1 & node_tags & tstt_tags & _ & _ & Hwrite).
  do 7 eexists. split; [exact Hwrite|].
  cbn [tstt nodes coordinates elements connectivity tstt_attrs].
  split; [reflexivity|]. split; [reflexivity|]. split; [reflexivity|].
  split; [apply lookup_insert_eq|].
  split; [reflexivity|]. split; [reflexivity|].
  split; [apply lookup_insert_eq|]. apply lookup_singleton_eq.
Qed.

Lemma write_global_ids_witness :
  exists f dset nodes_ coords name elems conn,
    write "1.0" "now" ex_points ex_cells (Some ex_point_data) None None
    = Ok f /\
    tstt f = Some dset /\
    nodes dset = Some nodes_ /\
    coordinates nodes_ = Some coords /\
    ds_attrs coords !! "start_id" = Some (int_attr 1) /\
    elements dset = Some {[name := elems]} /\
    connectivity elems = Some conn /\
    ds_attrs conn !! "start_id" = Some (int_attr 5) /\
    tstt_attrs dset !! "max_id"
    = Some {| attr_dtype := Code "u8"; attr_value := 8 |}.
Proof.
  apply (write_global_ids "1.0" "now" ex_points ex_cells
           (Some ex_point_data) None None 4 3 3).
  - reflexivity.
  - reflexivity.
  - reflexivity.
  - right. left. reflexivity.
  - reflexivity.
  - exact ex_point_data_shaped.
Defined.

(** C4: the element block [write] creates depends on the row width of
    the cells alone: Edge2 with code 1 for width 2, Tri3 with code 2 for
    width 3, Tet4 with code 5 for width 4; for any other width the lookup
    in [h5m_type] raises. *)
Theorem write_element_block (version now : string) (points cells : ndarray)
    (point_data cell_data field_data : option (gmap string ndarray))
    (N w : nat) :
  len points = Ok N ->
  shape_at cells 1 = Ok w ->
  tags_shaped point_data ->
  let r := write version now points cells point_data cell_data field_data in
  (is_integer (adtype cells) = true ->
   (w = 2%nat -> written_block r "Edge2" 1) /\
   (w = 3%nat -> written_block r "Tri3" 2) /\
   (w = 4%nat -> written_block r "Tet4" 5)) /\
  (w <> 2%nat -> w <> 3%nat -> w <> 4%nat ->
   r = Err (KeyError (KInt (Z.of_nat w)))).
Proof.
  intros HN Hw Htags r. split.
  - intros Hint. destruct (len_of_shape_at _ _ _ Hw) as [M HM].
    assert (Hblock : forall name code,
      h5m_type !! w = Some (name, code) -> written_block r name code).
    { intros name code Hty.
      destruct (write_ok version now points cells point_data cell_data
                  field_data N M w name code HN HM Hw Hty Hint Htags)
        as (cells1 & node_tags & tstt_tags & _ & _ & Hwrite).
      do 3 eexists. split; [exact Hwrite|].
      cbn [tstt elements elem_attrs].
      split; [reflexivity|]. split; [reflexivity|].
      apply lookup_singleton_eq. }
    repeat split; intros ->; apply Hblock; by rewrite h5m_type_lookup.
  - intros H2 H3 H4.
    assert (Hpd : exists x,
      match point_data with
      | Some pd => let* '(t, g) := write_point_data pd in Ok (Some t, g)
      | None => Ok (None, ∅)
      end = Ok x).
    { destruct point_data as [pd|]; simpl in *; [|eauto].
      destruct (write_point_data_ok pd Htags) as (t & g & -> & _).
      simpl. eauto. }
    destruct Hpd as [[node_tags tstt_tags] Hpd].
    subst r. unfold write. rewrite HN. cbn [rbind]. rewrite Hpd. cbn [rbind].
    rewrite Hw. cbn [rbind]. rewrite h5m_type_lookup.
    do 5 (destruct w as [|w]; [reflexivity || lia|]). reflexivity.
Qed.

Lemma write_element_block_witness :
  written_block (write "1.0" "now" ex_points ex_cells None None None)
    "Tri3" 2.
Proof.
  refine (proj1 (proj2
    (proj1 (write_element_block "1.0" "now" ex_points ex_cells None None None
              4 3 _ _ _) _)) _).
  - reflexivity.
  - reflexivity.
  - exact I.
  - reflexivity.
  - reflexivity.
Defined.

(** C10: an edge mesh (cells of row width 2) is written, into a block
    named Edge2, but the container cannot be read back: [read] finds
    neither Tri3 nor Tet4 and raises. *)
Theorem edge_mesh_not_readable (version now : string)
    (junk : string -> nat -> Z) (points cells : ndarray)
    (point_data cell_data field_data : option (gmap string ndarray))
    (N : nat) :
  len points = Ok N ->
  shape_at cells 1 = Ok 2%nat ->
  is_integer (adtype cells) = true ->
  tags_shaped point_data ->
  exists f dset elems,
    write version now points cells point_data cell_data field_data = Ok f /\
    tstt f = Some dset /\
    elements dset = Some {["Edge2" := elems]} /\
    read junk f = Err (RuntimeError "Need Tri3s or Tet4s.").
Proof.
  intros HN Hw Hint Htags.
  destruct (len_of_shape_at _ _ _ Hw) as [M HM].
  assert (Hty : h5m_type !! 2%nat = Some ("Edge2", 1))
    by (by rewrite h5m_type_lookup).
  destruct (write_ok version now points cells point_data cell_data field_data
              N M 2 "Edge2" 1 HN HM Hw Hty Hint Htags)
    as (cells1 & node_tags & tstt_tags & _ & _ & Hwrite).
  do 3 eexists. split; [exact Hwrite|].
  cbn [tstt elements]. split; [reflexivity|]. split; [reflexivity|].
  unfold read. cbn [tstt nodes coordinates nodes_tags elements getkey rbind].
  rewrite select_elems_singleton, decide_False; [reflexivity|].
  intros [?|?]; discriminate.
Qed.

Lemma edge_mesh_not_readable_witness :
  exists f dset elems,
    write "1.0" "now" ex_points ex_edges None None None = Ok f /\
    tstt f = Some dset /\
    elements dset = Some {["Edge2" := elems]} /\
    read sevens f = Err (RuntimeError "Need Tri3s or Tet4s.").
Proof.
  apply (edge_mesh_not_readable "1.0" "now" sevens ex_points ex_edges
           None None None 4).
  - reflexivity.
  - reflexivity.
  - reflexivity.
  - exact I.
Defined.

(** ** Selecting the element block *)

Lemma supported_Ok {A} (a : A) : supported (Ok a).
Proof. discriminate. Qed.

Lemma supported_rbind {A B} (r : result A) (k : A -> result B) :
  supported r -> (forall a, supported (k a)) -> supported (rbind r k).
Proof.
  destruct r as [a|e]; simpl; intros Hr Hk; [apply Hk|].
  intros H. apply Hr. injection H as ->. reflexivity.
Qed.

Lemma supported_getkey {A} (key : string) (o : option A) :
  supported (getkey key o).
Proof. destruct o; discriminate. Qed.

Lemma supported_getitem {A} (l : list A) (i : nat) : supported (getitem l i).
Proof. unfold getitem. destruct (l !! i); discriminate. Qed.

Lemma supported_add_scalar (a : ndarray) (c : Z) : supported (add_scalar a c).
Proof. unfold add_scalar. destruct (is_integer (adtype a)); discriminate. Qed.

Lemma supported_len (a : ndarray) : supported (len a).
Proof. unfold len. destruct (shape a); discriminate. Qed.

Lemma supported_int_vector (a : ndarray) : supported (int_vector a).
Proof.
  unfold int_vector. destruct (shape a) as [|? [|? ?]]; try discriminate.
  destruct (is_integer (adtype a)); discriminate.
Qed.

Lemma supported_index_assign (arr idx : list Z) (v : Z) :
  supported (index_assign arr idx v).
Proof.
  unfold index_assign. destruct (forallb _ idx); discriminate.
Qed.

Create HintDb supported discriminated.

#[local] Hint Resolve supported_Ok supported_getkey supported_getitem
  supported_add_scalar supported_len supported_int_vector
  supported_index_assign : supported.

(** Peel the binds of a computation whose steps are known not to raise
    the unsupported-mesh-type error. *)
Ltac supported_steps :=
  repeat first
    [ solve [auto with supported]
    | apply supported_rbind; [|intros ?] ].

Lemma supported_fill_runs (cs ce : Z) (value : list Z) (k : nat)
    (runs : list (Z * Z)) (arr : list Z) :
  supported (fill_runs cs ce value k arr runs).
Proof.
  revert arr. induction runs as [|[s l] runs IH]; intros arr; simpl.
  - apply supported_Ok.
  - destruct (_ && _); [|discriminate]. supported_steps.
Qed.

#[local] Hint Resolve supported_fill_runs : supported.

Lemma supported_decode_row (sets_contents value : list Z) (cs ce : Z)
    (arr : list Z) (end_ : Z) (k : nat) (row : list Z) :
  supported (decode_row sets_contents value cs ce arr end_ k row).
Proof.
  unfold decode_row. supported_steps.
  match goal with |- supported (if ?rc then _ else _) => destruct rc end;
    supported_steps.
Qed.

#[local] Hint Resolve supported_decode_row : supported.

Lemma supported_decode_rows (sets_contents value : list Z) (cs ce : Z)
    (rows : list (list Z)) (arr : list Z) (end_ : Z) (k : nat) :
  supported (decode_rows sets_contents value cs ce arr end_ k rows).
Proof.
  revert arr end_ k. induction rows as [|row rows IH]; intros arr end_ k; simpl.
  - apply supported_Ok.
  - apply supported_rbind; [auto with supported|].
    intros [arr' end']. apply IH.
Qed.

#[local] Hint Resolve supported_decode_rows : supported.

Lemma supported_decode_sets (junk : string -> nat -> Z) (cells : ndarray)
    (sets_contents : list Z) (sets_list : list (list Z))
    (sets_tags_ : gmap string (list Z)) (cs ce : Z)
    (cell_data : gmap string ndarray) :
  supported (decode_sets junk cells sets_contents sets_list sets_tags_
               cs ce cell_data).
Proof.
  unfold decode_sets.
  apply (map_fold_weak_ind (fun r (_ : gmap string (list Z)) => supported r)).
  - apply supported_Ok.
  - intros key value m r _ Hr.
    apply supported_rbind; [exact Hr|]. intros cd. supported_steps.
Qed.

Lemma supported_read_sets (junk : string -> nat -> Z) (dset : tstt_group)
    (elems : elem_group) (conn : dataset) (cells : ndarray)
    (cell_data : gmap string ndarray) :
  supported (read_sets junk dset elems conn cells cell_data).
Proof.
  unfold read_sets.
  destruct (sets dset) as [s|]; [|apply supported_Ok].
  destruct (contents s) as [c|]; [|apply supported_Ok].
  supported_steps.
  destruct (gids_contiguous _ _ _); [apply supported_decode_sets|discriminate].
Qed.

#[local] Hint Resolve supported_read_sets : supported.

Lemma supported_read_elems (junk : string -> nat -> Z) (dset : tstt_group)
    (points : ndarray) (point_data : gmap string ndarray)
    (elems : elem_group) :
  supported (read_elems junk dset points point_data elems).
Proof. unfold read_elems. supported_steps. Qed.

(** C3: once [read] has reached the elements group, it continues with
    the child named Tri3 when there is one, whatever else the group holds,
    with the child named Tet4 when there is no Tri3, and it raises the
    unsupported-mesh-type error exactly when neither child is present. *)
Theorem read_selects_element_block (junk : string -> nat -> Z) (f : h5file)
    (dset : tstt_group) (nodes_ : nodes_group) (coords : dataset)
    (elements_ : gmap string elem_group) :
  tstt f = Some dset ->
  nodes dset = Some nodes_ ->
  coordinates nodes_ = Some coords ->
  elements dset = Some elements_ ->
  let continue_with :=
    read_elems junk dset (dataset_value coords)
      (read_tags (nodes_tags nodes_)) in
  (forall tri3, elements_ !! "Tri3" = Some tri3 ->
     read junk f = continue_with tri3) /\
  (forall tet4, elements_ !! "Tri3" = None ->
     elements_ !! "Tet4" = Some tet4 ->
     read junk f = continue_with tet4) /\
  (read junk f = Err (RuntimeError "Need Tri3s or Tet4s.") <->
   elements_ !! "Tri3" = None /\ elements_ !! "Tet4" = None).
Proof.
  intros Ht Hn Hc He continue_with.
  assert (Hread : read junk f
    = let* elems := select_elems elements_ in continue_with elems).
  { unfold read. rewrite Ht. cbn [getkey rbind]. rewrite Hn. cbn [getkey rbind].
    rewrite Hc. cbn [getkey rbind]. rewrite He. reflexivity. }
  rewrite Hread. unfold select_elems.
  destruct (elements_ !! "Tri3") as [t3|];
    [|destruct (elements_ !! "Tet4") as [t4|]]; cbn [rbind].
  - split; [intros ? [= <-]; reflexivity|]. split; [discriminate|].
    split; [|intros [? _]; discriminate].
    intros H. exfalso. exact (supported_read_elems _ _ _ _ _ H).
  - split; [discriminate|]. split; [intros ? _ [= <-]; reflexivity|].
    split; [|intros [_ ?]; discriminate].
    intros H. exfalso. exact (supported_read_elems _ _ _ _ _ H).
  - split; [discriminate|]. split; [discriminate|]. split; auto.
Qed.

Lemma read_selects_element_block_witness :
  read sevens (file_with_elements two_blocks)
  = read_elems sevens
      {| tstt_attrs := ∅;
         nodes := Some {| coordinates := Some (create_dataset ex_points);
                          nodes_tags := None |};
         tags := None;
         elements := Some two_blocks;
         elemtypes := None;
         history := None;
         sets := None |}
      ex_points ∅ (ex_block [0; 1; 2]).
Proof.
  refine (proj1 (read_selects_element_block sevens
                   (file_with_elements two_blocks) _ _ _ two_blocks
                   eq_refl eq_refl eq_refl eq_refl) (ex_block [0; 1; 2]) _).
  reflexivity.
Defined.

(** ** The contiguity assertion *)

Lemma zip_seq_forallb (a : Z) (gids : list Z) (k : nat) :
  forallb (fun p => fst p =? snd p)
    (zip gids (map (fun i => a + Z.of_nat i) (seq k (length gids)))) = true
  <-> forall i g, gids !! i = Some g -> g = a + Z.of_nat (k + i).
Proof.
  revert k. induction gids as [|g0 gids IH]; intros k; simpl.
  - split; [intros _ i g H; discriminate|reflexivity].
  - rewrite andb_true_iff, IH, Z.eqb_eq. split.
    + intros [H0 Hrest] [|i] g Hg; simpl in Hg.
      * injection Hg as <-. rewrite Nat.add_0_r. exact H0.
      * rewrite (Hrest i g Hg). f_equal. lia.
    + intros H. split.
      * rewrite (H 0%nat g0 eq_refl). f_equal. lia.
      * intros i g Hg. rewrite (H (S i) g Hg). f_equal. lia.
Qed.

Lemma gids_contiguous_spec (cs : Z) (gids : list Z) :
  gids_contiguous cs (cs + Z.of_nat (length gids) - 1) gids = true
  <-> contiguous_run cs gids.
Proof.
  unfold gids_contiguous, py_range, contiguous_run.
  replace (cs + Z.of_nat (length gids) - 1 + 1 - cs)
    with (Z.of_nat (length gids)) by lia.
  rewrite Nat2Z.id. apply zip_seq_forallb.
Qed.

(** [read] from the assertion on. *)
Lemma read_from_assertion (junk : string -> nat -> Z) (f : h5file)
    (si : sets_input) :
  sets_input_of f = Some si ->
  read junk f
  = if gids_contiguous (si_start si) (cell_end_gid si) (cell_gids si) then
      let* cell_data :=
        decode_sets junk (si_cells si) (si_contents si) (si_list si)
          (si_tags si) (si_start si) (cell_end_gid si) (si_cell_data si) in
      Ok (si_points si, si_cells si, si_point_data si, cell_data, ∅)
    else Err AssertionError.
Proof.
  unfold sets_input_of, read, read_elems, read_sets. intros H.
  repeat
    match type of H with
    | context [mbind _ ?o] =>
        match o with
        | result_ok ?r => destruct r
        | _ => destruct o
        end;
        [cbn in H; cbn [getkey rbind]|discriminate]
    end.
  injection H as <-. unfold cell_end_gid, cell_gids.
  cbn [getkey rbind si_start si_ids si_cells si_contents si_list si_tags
       si_cell_data si_points si_point_data].
  destruct (gids_contiguous _ _ _); reflexivity.
Qed.


Lemma partition_input_of (ids sets_contents : list Z)
    (sets_list : list (list Z)) (sets_tags_ : gmap string (list Z)) :
  sets_input_of (partition_file ids sets_contents sets_list sets_tags_)
  = Some (partition_input ids sets_contents sets_list sets_tags_).
Proof.
  unfold sets_input_of, partition_file, partition_input.
  cbn [tstt nodes coordinates elements mbind option_bind].
  rewrite select_elems_singleton, decide_True by auto.
  cbn [result_ok mbind option_bind connectivity ex_block sets contents list_
       sets_tags elem_tags].
  rewrite dataset_value_attrs_create, dataset_value_create.
  change (add_scalar ex_conn (-1)) with (Ok ex_cells).
  cbn [result_ok mbind option_bind attrs_create ds_attrs].
  rewrite lookup_insert_eq. cbn [mbind option_bind].
  rewrite lookup_singleton_eq. cbn [mbind option_bind].
  rewrite dataset_value_create. cbn [int_vector shape adtype is_integer data
    result_ok mbind option_bind].
  rewrite read_tags_fmap, map_fmap_singleton, dataset_value_create.
  reflexivity.
Defined.

Lemma ids_from_zero_contiguous (sets_contents : list Z)
    (sets_list : list (list Z)) (sets_tags_ : gmap string (list Z)) :
  contiguous_run 5
    (cell_gids (partition_input [0; 1; 2] sets_contents sets_list sets_tags_)).
Proof. apply gids_contiguous_spec. reflexivity. Defined.


(** ** Decoding the sets *)

Lemma slice_assign_length (arr : list Z) (i0 i1 v : Z) :
  length (slice_assign arr i0 i1 v) = length arr.
Proof. unfold slice_assign. apply length_imap. Qed.

Lemma slice_assign_lookup (arr : list Z) (i0 i1 v : Z) (j : nat) (x : Z) :
  0 <= i0 -> 0 <= i1 ->
  arr !! j = Some x ->
  slice_assign arr i0 i1 v !! j
  = Some (if (i0 <=? Z.of_nat j) && (Z.of_nat j <? i1) then v else x).
Proof.
  intros H0 H1 Hj. unfold slice_assign. rewrite list_lookup_imap, Hj. simpl.
  f_equal. apply lookup_lt_Some in Hj.
  unfold slice_index.
  rewrite (proj2 (Z.ltb_ge i0 0)), (proj2 (Z.ltb_ge i1 0)) by lia.
  destruct (decide _) as [Hd|Hd];
    destruct (Z.leb_spec i0 (Z.of_nat j));
    destruct (Z.ltb_spec (Z.of_nat j) i1);
    simpl; try reflexivity; lia.
Qed.

Lemma fill_runs_spec (cs : Z) (M : nat) (value : list Z) (k : nat) (v : Z)
    (runs : list (Z * Z)) (arr : list Z) :
  value !! k = Some v ->
  Forall (fun run => cs <= fst run /\ 0 <= snd run /\
                     fst run + snd run - 1 <= cs + Z.of_nat M - 1) runs ->
  length arr = M ->
  exists arr',
    fill_runs cs (cs + Z.of_nat M - 1) value k arr runs = Ok arr' /\
    length arr' = M /\
    forall j x, arr !! j = Some x ->
      arr' !! j = Some (if existsb (run_covers cs j) runs then v else x).
Proof.
  intros Hv Hruns. revert arr.
  induction Hruns as [|[s l] runs (Hs & Hl & He) _ IH]; intros arr Hlen.
  - exists arr. simpl. auto.
  - simpl in *. rewrite (proj2 (Z.leb_le cs s)), (proj2 (Z.leb_le _ _)) by lia.
    unfold getitem. rewrite Hv. cbn [andb rbind].
    destruct (IH (slice_assign arr (s - cs) (s + l - 1 - cs + 1) v))
      as (arr' & Hfill & Hlen' & Hlook).
    { by rewrite slice_assign_length. }
    exists arr'. split; [exact Hfill|]. split; [exact Hlen'|].
    intros j x Hj.
    assert (H0 : 0 <= s - cs) by lia.
    assert (H1 : 0 <= s + l - 1 - cs + 1) by lia.
    rewrite (Hlook j _ (slice_assign_lookup arr _ _ v j x H0 H1 Hj)).
    assert (Hc : run_covers cs j (s, l)
                 = (s - cs <=? Z.of_nat j)
                   && (Z.of_nat j <? s + l - 1 - cs + 1)).
    { unfold run_covers. simpl. f_equal.
      destruct (Z.leb_spec (Z.of_nat j) (s + l - 1 - cs));
        destruct (Z.ltb_spec (Z.of_nat j) (s + l - 1 - cs + 1));
        reflexivity || lia. }
    rewrite Hc. f_equal.
    destruct (_ && _); destruct (existsb _ runs); reflexivity.
Qed.

Lemma foldl_insert_lookup (n : nat) (v : Z) (idx : list Z) (arr : list Z) :
  Forall (fun i => 0 <= i < Z.of_nat n) idx ->
  length arr = n ->
  let arr' := foldl (fun a i => <[item_index n i := v]> a) arr idx in
  length arr' = n /\
  forall j x, arr !! j = Some x ->
    arr' !! j = Some (if existsb (fun i => i =? Z.of_nat j) idx then v else x).
Proof.
  intros Hidx. revert arr.
  induction Hidx as [|i idx Hi _ IH]; intros arr Hlen; simpl.
  - auto.
  - destruct (IH (<[item_index n i := v]> arr)) as [Hlen' Hlook].
    { by rewrite length_insert. }
    split; [exact Hlen'|]. intros j x Hj.
    assert (Hii : item_index n i = Z.to_nat i).
    { unfold item_index. by rewrite (proj2 (Z.ltb_ge i 0)) by lia. }
    rewrite Hii in *.
    destruct (Z.eqb_spec i (Z.of_nat j)) as [->|Hne]; simpl.
    + rewrite Nat2Z.id in *.
      rewrite (Hlook j v).
      * by destruct (existsb _ idx).
      * apply list_lookup_insert_eq. by apply lookup_lt_Some in Hj.
    + apply Hlook. rewrite list_lookup_insert_ne by lia. exact Hj.
Qed.

Lemma index_assign_spec (arr : list Z) (cs : Z) (gids : list Z) (v : Z) :
  Forall (fun g => cs <= g <= cs + Z.of_nat (length arr) - 1) gids ->
  exists arr',
    index_assign arr (map (fun g => g - cs) gids) v = Ok arr' /\
    length arr' = length arr /\
    forall j x, arr !! j = Some x ->
      arr' !! j
      = Some (if existsb (fun g => g - cs =? Z.of_nat j) gids then v else x).
Proof.
  intros Hg. unfold index_assign.
  assert (Hidx : Forall (fun i => 0 <= i < Z.of_nat (length arr))
                   (map (fun g => g - cs) gids)).
  { apply Forall_map. eapply Forall_impl; [exact Hg|]. simpl. intros; lia. }
  assert (Hvalid : forallb (valid_index (length arr))
                     (map (fun g => g - cs) gids) = true).
  { apply forallb_forall. intros i Hi. apply list_elem_of_In in Hi.
    rewrite Forall_forall in Hidx. specialize (Hidx i Hi).
    unfold valid_index. apply andb_true_iff. split.
    - apply Z.leb_le. lia.
    - apply Z.ltb_lt. lia. }
  rewrite Hvalid.
  destruct (foldl_insert_lookup (length arr) v _ arr Hidx eq_refl)
    as [Hlen Hlook].
  eexists. split; [reflexivity|]. split; [exact Hlen|].
  intros j x Hj. rewrite (Hlook j x Hj). f_equal.
  replace (existsb (fun i => i =? Z.of_nat j) (map (fun g => g - cs) gids))
    with (existsb (fun g => g - cs =? Z.of_nat j) gids); [reflexivity|].
  clear. induction gids as [|g gids IH]; simpl; [reflexivity|]. by rewrite IH.
Qed.

Lemma getitem_lookup {A} (l : list A) (i : nat) (d : A) :
  (i < length l)%nat -> getitem l i = Ok (nth i l d).
Proof.
  intros H. unfold getitem.
  destruct (lookup_lt_is_Some_2 l i H) as [a Ha]. rewrite Ha.
  f_equal. symmetry. by apply nth_lookup_Some.
Qed.

Lemma int_to_bool_list_length (num : Z) :
  (4 <= length (_int_to_bool_list num))%nat.
Proof.
  unfold _int_to_bool_list. rewrite length_map, length_rev.
  assert (Hlen : forall s, length (list_ascii_of_string s) = String.length s).
  { induction s; simpl; congruence. }
  assert (Happ : forall s t,
    String.length (String.append s t)
    = (String.length s + String.length t)%nat).
  { induction s; simpl; intros; [reflexivity|]. by rewrite IHs. }
  assert (Hz : forall n, String.length (zeros n) = n).
  { induction n; simpl; congruence. }
  rewrite Hlen. unfold format_04b, zfill.
  destruct (num <? 0); simpl; rewrite Happ, Hz; lia.
Qed.

(** One row that names cells of the block only. *)
Lemma decode_row_spec (sets_contents value : list Z) (cs : Z) (M : nat)
    (arr : list Z) (end_ : Z) (k : nat) (row : list Z) (v : Z) :
  value !! k = Some v ->
  length arr = M ->
  row_in_block sets_contents cs M end_ row ->
  exists arr',
    decode_row sets_contents value cs (cs + Z.of_nat M - 1) arr end_ k row
    = Ok (arr', row_end row + 1) /\
    length arr' = M /\
    forall j x, arr !! j = Some x ->
      arr' !! j
      = Some (if row_covers sets_contents cs end_ row j then v else x).
Proof.
  intros Hv Hlen [Hrow Hin]. unfold decode_row.
  rewrite (getitem_lookup row 3 0) by lia. cbn [rbind].
  rewrite (getitem_lookup _ 3 false) by apply int_to_bool_list_length.
  cbn [rbind]. rewrite (getitem_lookup row 0 0) by lia. cbn [rbind].
  unfold row_covers. fold (range_compressed row) in *.
  fold (row_end row). destruct (range_compressed row).
  - destruct (fill_runs_spec cs M value k v _ arr Hv Hin Hlen)
      as (arr' & Hfill & Hlen' & Hlook).
    exists arr'. unfold runs_of in Hfill. rewrite Hfill. auto.
  - subst M. destruct (index_assign_spec arr cs _ v Hin)
      as (arr' & Hassign & Hlen' & Hlook).
    exists arr'. unfold getitem. rewrite Hv. cbn [rbind].
    unfold gids_of in Hassign. rewrite Hassign. auto.
Qed.

Lemma foldl_insert_valid (n : nat) (v : Z) (idx : list Z) (arr : list Z) :
  forallb (valid_index n) idx = true ->
  length arr = n ->
  let arr' := foldl (fun a i => <[item_index n i := v]> a) arr idx in
  length arr' = n /\
  forall j x, arr !! j = Some x ->
    arr' !! j = Some (if assigned n idx j then v else x).
Proof.
  revert arr.
  induction idx as [|i idx IH]; intros arr Hvalid Hlen; simpl.
  - auto.
  - simpl in Hvalid. apply andb_true_iff in Hvalid as [Hi Hvalid].
    assert (Hin : (item_index n i < n)%nat).
    { unfold valid_index in Hi. apply andb_true_iff in Hi as [Hlo Hhi].
      apply Z.leb_le in Hlo. apply Z.ltb_lt in Hhi. unfold item_index.
      destruct (Z.ltb_spec i 0); lia. }
    destruct (IH (<[item_index n i := v]> arr) Hvalid) as [Hlen' Hlook].
    { by rewrite length_insert. }
    split; [exact Hlen'|]. intros j x Hj.
    destruct (Nat.eqb_spec (item_index n i) j) as [<-|Hne]; simpl.
    + rewrite (Hlook (item_index n i) v).
      * by destruct (assigned n idx (item_index n i)).
      * apply list_lookup_insert_eq. lia.
    + apply Hlook. rewrite list_lookup_insert_ne by exact Hne. exact Hj.
Qed.

Lemma index_assign_valid (arr idx : list Z) (v : Z) :
  forallb (valid_index (length arr)) idx = true ->
  exists arr',
    index_assign arr idx v = Ok arr' /\
    length arr' = length arr /\
    forall j x, arr !! j = Some x ->
      arr' !! j = Some (if assigned (length arr) idx j then v else x).
Proof.
  intros Hvalid. unfold index_assign. rewrite Hvalid.
  eexists. split; [reflexivity|].
  exact (foldl_insert_valid (length arr) v idx arr Hvalid eq_refl).
Qed.

(** One row that is not range-compressed, whatever it lists. *)
Lemma decode_row_explicit (sets_contents value : list Z) (cs ce : Z)
    (arr : list Z) (end_ : Z) (k : nat) (row : list Z) (v : Z) :
  (4 <= length row)%nat ->
  range_compressed row = false ->
  value !! k = Some v ->
  let local :=
    map (fun g => g - cs) (py_slice sets_contents end_ (row_end row + 1)) in
  if forallb (valid_index (length arr)) local then
    exists arr',
      decode_row sets_contents value cs ce arr end_ k row
      = Ok (arr', row_end row + 1) /\
      length arr' = length arr /\
      forall j x, arr !! j = Some x ->
        arr' !! j = Some (if assigned (length arr) local j then v else x)
  else
    decode_row sets_contents value cs ce arr end_ k row = Err IndexError.
Proof.
  intros Hrow Hrc Hv local. unfold decode_row.
  rewrite (getitem_lookup row 3 0) by lia. cbn [rbind].
  rewrite (getitem_lookup _ 3 false) by apply int_to_bool_list_length.
  cbn [rbind]. rewrite (getitem_lookup row 0 0) by lia. cbn [rbind].
  fold (range_compressed row). rewrite Hrc. fold (row_end row).
  unfold getitem. rewrite Hv. cbn [rbind]. fold local.
  destruct (forallb (valid_index (length arr)) local) eqn:Hvalid.
  - destruct (index_assign_valid arr local v Hvalid)
      as (arr' & Hassign & Hlen & Hlook).
    exists arr'. rewrite Hassign. auto.
  - unfold index_assign. rewrite Hvalid. reflexivity.
Qed.

Lemma cursor_from_cons (end_ : Z) (row : list Z) (rest : list (list Z))
    (i : nat) :
  cursor_from end_ (row :: rest) (S i) = cursor_from (row_end row + 1) rest i.
Proof. destruct i; reflexivity. Qed.

Section RowLoop.

(** The contents of the sets, the values of one set tag and the first
    global ID of the block stay the same throughout the loop. *)
Context (sets_contents value : list Z) (cs : Z).

(** The loop over rows that name cells of the block only. *)
Lemma decode_rows_spec (M : nat) (rows : list (list Z)) (arr : list Z)
    (end_ : Z) (k : nat) :
  length arr = M ->
  (forall i row, rows !! i = Some row ->
     row_in_block sets_contents cs M (cursor_from end_ rows i) row) ->
  (forall i, (i < length rows)%nat -> is_Some (value !! (k + i)%nat)) ->
  exists arr',
    decode_rows sets_contents value cs (cs + Z.of_nat M - 1) arr end_ k rows
    = Ok arr' /\
    length arr' = M /\
    forall j x, arr !! j = Some x ->
      arr' !! j = Some (label sets_contents value cs j x end_ k rows).
Proof.
  revert arr end_ k.
  induction rows as [|row rest IH]; intros arr end_ k Hlen Hrows Hval.
  - exists arr. simpl. auto.
  - destruct (Hval 0%nat ltac:(simpl; lia)) as [v Hv].
    rewrite Nat.add_0_r in Hv.
    destruct (decode_row_spec sets_contents value cs M arr end_ k row v
                Hv Hlen (Hrows 0%nat row eq_refl))
      as (arr1 & Hrow & Hlen1 & Hlook1).
    destruct (IH arr1 (row_end row + 1) (S k) Hlen1)
      as (arr' & Hdec & Hlen' & Hlook').
    { intros i r Hi. rewrite <- (cursor_from_cons end_).
      by apply (Hrows (S i)). }
    { intros i Hi. replace (S k + i)%nat with (k + S i)%nat by lia.
      apply Hval. simpl. lia. }
    exists arr'. simpl. rewrite Hrow. cbn [rbind].
    split; [exact Hdec|]. split; [exact Hlen'|].
    intros j x Hj. rewrite (Hlook' j _ (Hlook1 j x Hj)).
    by rewrite (nth_lookup_Some _ _ 0 _ Hv).
Qed.

Lemma label_uncovered (j : nat) (rows : list (list Z)) (cur end_ : Z)
    (k : nat) :
  (forall i row, rows !! i = Some row ->
     row_covers sets_contents cs (cursor_from end_ rows i) row j = false) ->
  label sets_contents value cs j cur end_ k rows = cur.
Proof.
  revert cur end_ k. induction rows as [|row rest IH]; intros cur end_ k H.
  - reflexivity.
  - simpl. pose proof (H 0%nat row eq_refl) as H0. simpl in H0.
    rewrite H0. apply IH.
    intros i r Hi. rewrite <- (cursor_from_cons end_). by apply (H (S i)).
Qed.

Lemma label_last (j : nat)
    (rows : list (list Z)) (cur end_ : Z) (k i : nat) (row : list Z) :
  rows !! i = Some row ->
  row_covers sets_contents cs (cursor_from end_ rows i) row j = true ->
  (forall i' row', (i < i')%nat -> rows !! i' = Some row' ->
     row_covers sets_contents cs (cursor_from end_ rows i') row' j = false) ->
  label sets_contents value cs j cur end_ k rows = nth (k + i) value 0.
Proof.
  revert cur end_ k i.
  induction rows as [|r rest IH]; intros cur end_ k i Hi Hcov Hlater.
  - discriminate.
  - destruct i as [|i]; simpl in Hi.
    + injection Hi as ->. simpl in Hcov. simpl. rewrite Hcov.
      rewrite Nat.add_0_r. apply label_uncovered.
      intros i' r' Hi'. rewrite <- (cursor_from_cons end_).
      apply (Hlater (S i')); [lia|exact Hi'].
    + simpl. replace (k + S i)%nat with (S k + i)%nat by lia.
      apply IH; [exact Hi| |].
      * by rewrite <- (cursor_from_cons end_).
      * intros i' r' Hlt Hi'. rewrite <- (cursor_from_cons end_).
        apply (Hlater (S i')); [lia|exact Hi'].
Qed.

End RowLoop.

Lemma set_key_inj (k1 k2 : string) : set_key k1 = set_key k2 -> k1 = k2.
Proof. unfold set_key. cbn. intros H. by injection H. Qed.

Lemma numpy_empty_lookup (junk : nat -> Z) (n j : nat) :
  (j < n)%nat -> data (numpy_empty junk n) !! j = Some (junk j).
Proof.
  intros H. simpl. rewrite list_lookup_fmap, lookup_seq_lt by exact H.
  reflexivity.
Qed.

(** The loop over the set tags, when the loop over the rows succeeds for
    each of them. *)
Lemma decode_sets_spec (junk : string -> nat -> Z) (cells : ndarray)
    (sets_contents : list Z) (sets_list : list (list Z)) (cs ce : Z)
    (n : nat) (cell_data : gmap string ndarray)
    (Q : string -> list Z -> list Z -> Prop)
    (sets_tags_ : gmap string (list Z)) :
  len cells = Ok n ->
  (forall key value, sets_tags_ !! key = Some value ->
     exists arr,
       decode_rows sets_contents value cs ce
         (data (numpy_empty (junk (set_key key)) n)) 0 0 sets_list = Ok arr
       /\ Q key value arr) ->
  exists cell_data',
    decode_sets junk cells sets_contents sets_list sets_tags_ cs ce cell_data
    = Ok cell_data' /\
    forall key value, sets_tags_ !! key = Some value ->
      exists arr,
        cell_data' !! set_key key
        = Some {| adtype := Int 64; shape := [n]; data := arr |}
        /\ Q key value arr.
Proof.
  intros Hn. unfold decode_sets.
  apply (map_fold_weak_ind (fun r (m : gmap string (list Z)) =>
    (forall key value, m !! key = Some value ->
       exists arr,
         decode_rows sets_contents value cs ce
           (data (numpy_empty (junk (set_key key)) n)) 0 0 sets_list = Ok arr
         /\ Q key value arr) ->
    exists cell_data',
      r = Ok cell_data' /\
      forall key value, m !! key = Some value ->
        exists arr,
          cell_data' !! set_key key
          = Some {| adtype := Int 64; shape := [n]; data := arr |}
          /\ Q key value arr)).
  - intros _. exists cell_data. split; [reflexivity|].
    intros key value H. by rewrite lookup_empty in H.
  - intros key value m r Hfresh IH Hall.
    destruct IH as (cd & -> & Hcd).
    { intros key' value' H'. apply Hall. rewrite lookup_insert_ne; [exact H'|].
      intros ->. congruence. }
    destruct (Hall key value (lookup_insert_eq _ _ _)) as (arr & Harr & HQ).
    cbn [rbind]. rewrite Hn. cbn [rbind]. rewrite Harr. cbn [rbind].
    eexists. split; [reflexivity|].
    intros key' value' H'.
    destruct (decide (key = key')) as [<-|Hne].
    + rewrite lookup_insert_eq in H'. injection H' as <-.
      exists arr. split; [apply lookup_insert_eq|exact HQ].
    + rewrite lookup_insert_ne in H' by exact Hne.
      destruct (Hcd key' value' H') as (arr' & Harr' & HQ').
      exists arr'. split; [|exact HQ'].
      rewrite lookup_insert_ne; [exact Harr'|].
      intros Heq. apply Hne. by apply set_key_inj.
Qed.

(** The whole of [read] on a container whose sets name cells of the
    selected block only: every set tag yields an array of M integers, in
    which position [j] holds the value of the last row covering [j], or
    what [numpy.empty] found there. *)
Lemma read_sets_labels (junk : string -> nat -> Z) (f : h5file)
    (si : sets_input) (M : nat) :
  sets_input_of f = Some si ->
  contiguous_run (si_start si) (cell_gids si) ->
  len (si_cells si) = Ok M ->
  length (si_ids si) = M ->
  rows_in_block (si_contents si) (si_start si) M (si_list si) ->
  (forall key value, si_tags si !! key = Some value ->
     (length (si_list si) <= length value)%nat) ->
  exists cell_data,
    read junk f
    = Ok (si_points si, si_cells si, si_point_data si, cell_data, ∅) /\
    forall key value, si_tags si !! key = Some value ->
      exists arr,
        cell_data !! set_key key
        = Some {| adtype := Int 64; shape := [M]; data := arr |} /\
        length arr = M /\
        forall j, (j < M)%nat ->
          arr !! j
          = Some (label (si_contents si) value (si_start si) j
                    (junk (set_key key) j) 0 0 (si_list si)).
Proof.
  intros Hsi Hrun Hlen Hids Hrows Hvals.
  rewrite (read_from_assertion junk f si Hsi).
  assert (Hce : cell_end_gid si = si_start si + Z.of_nat M - 1).
  { unfold cell_end_gid, cell_gids. by rewrite length_map, Hids. }
  pose proof (gids_contiguous_spec (si_start si) (cell_gids si)) as Hspec.
  fold (cell_end_gid si) in Hspec. rewrite (proj2 Hspec Hrun), Hce.
  destruct (decode_sets_spec junk (si_cells si) (si_contents si) (si_list si)
              (si_start si) (si_start si + Z.of_nat M - 1) M (si_cell_data si)
              (fun key value arr =>
                 length arr = M /\
                 forall j, (j < M)%nat ->
                   arr !! j
                   = Some (label (si_contents si) value (si_start si) j
                             (junk (set_key key) j) 0 0 (si_list si)))
              (si_tags si) Hlen)
    as (cell_data & Hdec & Hcd).
  - intros key value Hkey.
    destruct (decode_rows_spec (si_contents si) value (si_start si) M
                (si_list si) (data (numpy_empty (junk (set_key key)) M)) 0 0)
      as (arr & Harr & HarrM & Hlook).
    + simpl. by rewrite length_map, length_seq.
    + exact Hrows.
    + intros i Hi. apply lookup_lt_is_Some_2.
      specialize (Hvals key value Hkey). simpl. lia.
    + exists arr. split; [exact Harr|]. split; [exact HarrM|].
      intros j Hj. apply Hlook. by apply numpy_empty_lookup.
  - exists cell_data. rewrite Hdec. split; [reflexivity|]. exact Hcd.
Qed.

(** The cursor [decode_row] hands to the next row. *)
Lemma decode_row_cursor (sets_contents value : list Z) (cs ce : Z)
    (arr : list Z) (end_ : Z) (k : nat) (row : list Z) (arr' : list Z)
    (end' : Z) :
  decode_row sets_contents value cs ce arr end_ k row = Ok (arr', end') ->
  end' = row_end row + 1.
Proof.
  unfold decode_row, getitem, row_end.
  destruct (row !! 3%nat) as [flags|]; [|discriminate]. cbn [rbind].
  destruct (_ !! 3%nat) as [rc|]; [|discriminate]. cbn [rbind].
  destruct (row !! 0%nat) as [row0|] eqn:H0; [|discriminate]. cbn [rbind].
  rewrite (nth_lookup_Some _ _ 0 _ H0).
  match goal with |- rbind ?r _ = _ -> _ => destruct r end;
    cbn [rbind]; congruence.
Qed.

Lemma row_covers_run (sets_contents : list Z) (cs end_ : Z) (row : list Z)
    (j : nat) (run : Z * Z) :
  range_compressed row = true ->
  run ∈ runs_of sets_contents end_ row ->
  fst run - cs <= Z.of_nat j <= fst run + snd run - 1 - cs ->
  row_covers sets_contents cs end_ row j = true.
Proof.
  intros Hrc Hin [Hlo Hhi]. unfold row_covers. rewrite Hrc.
  apply existsb_exists. exists run. split; [by apply list_elem_of_In|].
  unfold run_covers. apply andb_true_iff. split; by apply Z.leb_le.
Qed.

Lemma row_covers_gid (sets_contents : list Z) (cs end_ : Z) (row : list Z)
    (g : Z) :
  range_compressed row = false ->
  g ∈ gids_of sets_contents end_ row ->
  cs <= g ->
  row_covers sets_contents cs end_ row (Z.to_nat (g - cs)) = true.
Proof.
  intros Hrc Hin Hlo. unfold row_covers. rewrite Hrc.
  apply existsb_exists. exists g. split; [by apply list_elem_of_In|].
  apply Z.eqb_eq. lia.
Qed.

(** C6, amended: on a container whose sets name cells of the selected
    block only, [read] returns, for every set tag, an array of M 64-bit
    integers under the key ['set::' + tag].  For a range-compressed row
    and each of its (start_gid, length) pairs, the positions
    [start_gid - cell_start .. start_gid + length - 1 - cell_start] hold
    the row's tag value (unless a later row covers them), and a position
    no row covers holds whatever [numpy.empty] found there, which need not
    be zero. *)
Theorem range_compressed_rows_decoded (junk : string -> nat -> Z)
    (f : h5file) (si : sets_input) (M : nat) :
  sets_input_of f = Some si ->
  contiguous_run (si_start si) (cell_gids si) ->
  len (si_cells si) = Ok M ->
  length (si_ids si) = M ->
  rows_in_block (si_contents si) (si_start si) M (si_list si) ->
  (forall key value, si_tags si !! key = Some value ->
     (length (si_list si) <= length value)%nat) ->
  exists cell_data,
    read junk f
    = Ok (si_points si, si_cells si, si_point_data si, cell_data, ∅) /\
    forall key value, si_tags si !! key = Some value ->
      exists arr,
        cell_data !! set_key key
        = Some {| adtype := Int 64; shape := [M]; data := arr |} /\
        length arr = M /\
        (forall k row v run j,
           si_list si !! k = Some row ->
           range_compressed row = true ->
           value !! k = Some v ->
           run ∈ runs_of (si_contents si) (cursor (si_list si) k) row ->
           fst run - si_start si <= Z.of_nat j
             <= fst run + snd run - 1 - si_start si ->
           (forall k' row', (k < k')%nat -> si_list si !! k' = Some row' ->
              row_covers (si_contents si) (si_start si)
                (cursor (si_list si) k') row' j = false) ->
           arr !! j = Some v) /\
        (forall j, (j < M)%nat ->
           (forall k row, si_list si !! k = Some row ->
              row_covers (si_contents si) (si_start si)
                (cursor (si_list si) k) row j = false) ->
           arr !! j = Some (junk (set_key key) j)).
Proof.
  intros Hsi Hrun Hlen Hids Hrows Hvals.
  destruct (read_sets_labels junk f si M Hsi Hrun Hlen Hids Hrows Hvals)
    as (cell_data & Hread & Hcd).
  exists cell_data. split; [exact Hread|].
  intros key value Hkey.
  destruct (Hcd key value Hkey) as (arr & Harr & HarrM & Hlabel).
  exists arr. split; [exact Harr|]. split; [exact HarrM|]. split.
  - intros k row v run j Hk Hrc Hv Hin Hj Hlater.
    assert (HjM : (j < M)%nat).
    { destruct (Hrows k row Hk) as [_ Hblock]. rewrite Hrc in Hblock.
      rewrite Forall_forall in Hblock. specialize (Hblock run Hin). lia. }
    rewrite (Hlabel j HjM). f_equal.
    rewrite (label_last _ _ _ _ _ _ _ _ k row Hk);
      [|by eapply row_covers_run|exact Hlater].
    by apply nth_lookup_Some.
  - intros j HjM Hnone. rewrite (Hlabel j HjM). f_equal.
    by apply label_uncovered.
Qed.

(** C7: on such a container, a row that is not range-compressed is read
    as the list of global IDs [contents[end : row_end + 1]], and the
    array of every set tag holds the row's tag value at the positions
    [gid - cell_start] of the listed IDs (unless a later row covers them);
    positions no row covers are left as they were allocated.  The cursor
    [end] is 0 for the first row and [row_end + 1] of the previous row for
    every other one, whichever branch that row took.  For any row that
    is not range-compressed, in any state of the loop, the assignment is
    numpy's [arr[gids - cell_start] = value]: IndexError when one of the
    indices is out of bounds, the value at the indexed positions and
    nothing else changed otherwise. *)
Theorem explicit_rows_decoded (junk : string -> nat -> Z)
    (f : h5file) (si : sets_input) (M : nat) :
  sets_input_of f = Some si ->
  contiguous_run (si_start si) (cell_gids si) ->
  len (si_cells si) = Ok M ->
  length (si_ids si) = M ->
  rows_in_block (si_contents si) (si_start si) M (si_list si) ->
  (forall key value, si_tags si !! key = Some value ->
     (length (si_list si) <= length value)%nat) ->
  (exists cell_data,
     read junk f
     = Ok (si_points si, si_cells si, si_point_data si, cell_data, ∅) /\
     forall key value, si_tags si !! key = Some value ->
       exists arr,
         cell_data !! set_key key
         = Some {| adtype := Int 64; shape := [M]; data := arr |} /\
         length arr = M /\
         (forall k row v g,
            si_list si !! k = Some row ->
            range_compressed row = false ->
            value !! k = Some v ->
            g ∈ py_slice (si_contents si) (cursor (si_list si) k)
                  (row_end row + 1) ->
            (forall k' row', (k < k')%nat -> si_list si !! k' = Some row' ->
               row_covers (si_contents si) (si_start si)
                 (cursor (si_list si) k') row'
                 (Z.to_nat (g - si_start si)) = false) ->
            0 <= g - si_start si /\
            arr !! Z.to_nat (g - si_start si) = Some v) /\
         (forall j, (j < M)%nat ->
            (forall k row, si_list si !! k = Some row ->
               row_covers (si_contents si) (si_start si)
                 (cursor (si_list si) k) row j = false) ->
            arr !! j = Some (junk (set_key key) j))) /\
  cursor (si_list si) 0 = 0 /\
  (forall k row, si_list si !! k = Some row ->
     cursor (si_list si) (S k) = row_end row + 1) /\
  (forall value arr end_ k row arr' end',
     decode_row (si_contents si) value (si_start si) (cell_end_gid si)
       arr end_ k row = Ok (arr', end') ->
     end' = row_end row + 1) /\
  (forall value arr end_ k row v,
     (4 <= length row)%nat ->
     range_compressed row = false ->
     value !! k = Some v ->
     let local :=
       map (fun g => g - si_start si)
         (py_slice (si_contents si) end_ (row_end row + 1)) in
     if forallb (valid_index (length arr)) local then
       exists arr',
         decode_row (si_contents si) value (si_start si) (cell_end_gid si)
           arr end_ k row = Ok (arr', row_end row + 1) /\
         length arr' = length arr /\
         forall j x, arr !! j = Some x ->
           arr' !! j = Some (if assigned (length arr) local j then v else x)
     else
       decode_row (si_contents si) value (si_start si) (cell_end_gid si)
         arr end_ k row = Err IndexError).
Proof.
  intros Hsi Hrun Hlen Hids Hrows Hvals.
  split; [|split; [reflexivity|split; [|split]]].
  - destruct (read_sets_labels junk f si M Hsi Hrun Hlen Hids Hrows Hvals)
      as (cell_data & Hread & Hcd).
    exists cell_data. split; [exact Hread|].
    intros key value Hkey.
    destruct (Hcd key value Hkey) as (arr & Harr & HarrM & Hlabel).
    exists arr. split; [exact Harr|]. split; [exact HarrM|]. split.
    + intros k row v g Hk Hrc Hv Hin Hlater.
      destruct (Hrows k row Hk) as [_ Hblock]. rewrite Hrc in Hblock.
      rewrite Forall_forall in Hblock. specialize (Hblock g Hin).
      split; [lia|].
      rewrite (Hlabel (Z.to_nat (g - si_start si))) by lia. f_equal.
      rewrite (label_last _ _ _ _ _ _ _ _ k row Hk);
        [|apply row_covers_gid; [exact Hrc|exact Hin|lia]|exact Hlater].
      by apply nth_lookup_Some.
    + intros j HjM Hnone. rewrite (Hlabel j HjM). f_equal.
      by apply label_uncovered.
  - intros k row Hk. unfold cursor, cursor_from. by rewrite Hk.
  - intros value arr end_ k row arr' end'. apply decode_row_cursor.
  - intros value arr end_ k row v. apply decode_row_explicit.
Qed.

Lemma one_tag_long_enough (row : list Z) (key : string)
    (value : list Z) :
  ({["P" := [9]]} : gmap string (list Z)) !! key = Some value ->
  (length [row] <= length value)%nat.
Proof.
  intros H. apply lookup_singleton_Some in H as [_ <-]. simpl. lia.
Defined.

Lemma range_compressed_rows_decoded_witness :
  exists cell_data arr,
    read sevens run_file = Ok (ex_points, ex_cells, ∅, cell_data, ∅) /\
    cell_data !! "set::P"
    = Some {| adtype := Int 64; shape := [3%nat]; data := arr |} /\
    arr !! 0%nat = Some 9 /\ arr !! 1%nat = Some 9 /\ arr !! 2%nat = Some 7.
Proof.
  destruct (range_compressed_rows_decoded sevens run_file
              (partition_input [0; 1; 2] [5; 2] [[1; -1; -1; 10]]
                 {["P" := [9]]}) 3
              (partition_input_of _ _ _ _)
              (ids_from_zero_contiguous _ _ _) eq_refl eq_refl)
    as (cell_data & Hread & Hcd).
  - intros [|i] row Hi; [|discriminate Hi]. injection Hi as <-.
    split; [simpl; lia|]. vm_compute. repeat constructor; discriminate.
  - apply one_tag_long_enough.
  - destruct (Hcd "P" [9] (lookup_singleton_eq _ _))
      as (arr & Harr & _ & Hfill & Hjunk).
    exists cell_data, arr. split; [exact Hread|]. split; [exact Harr|].
    split; [|split].
    + apply (Hfill 0%nat [1; -1; -1; 10] 9 (5, 2) 0%nat);
        [reflexivity|reflexivity|reflexivity|apply list_elem_of_here
        |simpl; lia|].
      intros [|k'] row' Hlt Hk'; [lia|discriminate Hk'].
    + apply (Hfill 0%nat [1; -1; -1; 10] 9 (5, 2) 1%nat);
        [reflexivity|reflexivity|reflexivity|apply list_elem_of_here
        |simpl; lia|].
      intros [|k'] row' Hlt Hk'; [lia|discriminate Hk'].
    + apply (Hjunk 2%nat); [lia|].
      intros [|k] row Hk; [|discriminate Hk]. injection Hk as <-. reflexivity.
Defined.

(** The claim C6 as stated fails: with memory that holds sevens, the cell
    no row covers reads 7, not 0. *)
Lemma uncovered_cell_not_zero :
  exists m arr,
    read sevens run_file = Ok m /\
    mesh_cell_data m !! "set::P" = Some arr /\
    row_covers [5; 2] 5 0 [1; -1; -1; 10] 2 = false /\
    data arr !! 2%nat = Some 7 /\
    data arr !! 2%nat <> Some 0.
Proof.
  eexists _, _. split; [vm_compute; reflexivity|].
  split; [vm_compute; reflexivity|].
  split; [reflexivity|]. split; [reflexivity|]. discriminate.
Qed.

Lemma explicit_rows_decoded_witness :
  exists cell_data arr,
    read sevens listed_file = Ok (ex_points, ex_cells, ∅, cell_data, ∅) /\
    cell_data !! "set::P"
    = Some {| adtype := Int 64; shape := [3%nat]; data := arr |} /\
    arr !! 0%nat = Some 9 /\ arr !! 1%nat = Some 7 /\ arr !! 2%nat = Some 9.
Proof.
  destruct (explicit_rows_decoded sevens listed_file
              (partition_input [0; 1; 2] [5; 7] [[1; -1; -1; 2]]
                 {["P" := [9]]}) 3
              (partition_input_of _ _ _ _)
              (ids_from_zero_contiguous _ _ _) eq_refl eq_refl)
    as [(cell_data & Hread & Hcd) _].
  - intros [|i] row Hi; [|discriminate Hi]. injection Hi as <-.
    split; [simpl; lia|]. vm_compute. repeat constructor; discriminate.
  - apply one_tag_long_enough.
  - destruct (Hcd "P" [9] (lookup_singleton_eq _ _))
      as (arr & Harr & _ & Hfill & Hjunk).
    exists cell_data, arr. split; [exact Hread|]. split; [exact Harr|].
    split; [|split].
    + refine (proj2 (Hfill 0%nat [1; -1; -1; 2] 9 5 eq_refl eq_refl eq_refl
                       _ _)); [apply list_elem_of_here|].
      intros [|k'] row' Hlt Hk'; [lia|discriminate Hk'].
    + apply (Hjunk 1%nat); [lia|].
      intros [|k] row Hk; [|discriminate Hk]. injection Hk as <-. reflexivity.
    + refine (proj2 (Hfill 0%nat [1; -1; -1; 2] 9 7 eq_refl eq_refl eq_refl
                       _ _)); [apply list_elem_of_further, list_elem_of_here|].
      intros [|k'] row' Hlt Hk'; [lia|discriminate Hk'].
Defined.

(** ** Rows that name points *)


(** C8 fails on the code: a row that lists the global ID of a point
    (4, the last of the points 1..4, one below the block 5..7) is
    accepted, and its value lands on the last cell. *)
Theorem explicit_point_row_accepted :
  read sevens point_row_file
  = Ok (ex_points, ex_cells, ∅,
        <["set::P" := {| adtype := Int 64; shape := [3%nat];
                         data := [7; 7; 9] |}]>
          {["GLOBAL_ID" := {| adtype := Int 64; shape := [3%nat];
                              data := [0; 1; 2] |}]},
        ∅).
Proof. vm_compute. reflexivity. Qed.

(** The same point as a run of a range-compressed row is refused. *)
Lemma compressed_point_run_refused :
  read sevens point_run_file = Err (RuntimeError "").
Proof. vm_compute. reflexivity. Qed.

(** * Further properties of [_int_to_bool_list], [write] and [read] *)

(** ** The flag decoder on any integer *)

Local Open Scope Z_scope.

Lemma list_ascii_append (s t : string) :
  list_ascii_of_string (String.append s t)
  = (list_ascii_of_string s ++ list_ascii_of_string t)%list.
Proof. induction s as [|c s IH]; simpl; [reflexivity|]. by rewrite IH. Qed.

Lemma bin_digits_pos_bits (p : positive) (acc : string) :
  map is_one (rev (list_ascii_of_string (bin_digits_pos p acc)))
  = (map is_one (rev (list_ascii_of_string acc)) ++ pos_bits p)%list.
Proof.
  revert acc. induction p as [p IH|p IH|]; intros acc; simpl.
  - rewrite IH. simpl. rewrite map_app, <- app_assoc. reflexivity.
  - rewrite IH. simpl. rewrite map_app, <- app_assoc. reflexivity.
  - rewrite map_app. reflexivity.
Qed.

Lemma pos_bits_testbit (p : positive) (i : nat) :
  nth i (pos_bits p) false = Z.testbit (Z.pos p) (Z.of_nat i).
Proof.
  revert i. induction p as [p IH|p IH|]; intros [|i]; cbn [nth pos_bits];
    try reflexivity; rewrite Nat2Z.inj_succ.
  - rewrite IH. change (Z.pos p~1) with (2 * Z.pos p + 1).
    by rewrite Z.testbit_odd_succ by lia.
  - rewrite IH. change (Z.pos p~0) with (2 * Z.pos p).
    by rewrite Z.testbit_even_succ by lia.
  - change 1 with (2 * 0 + 1).
    rewrite Z.testbit_odd_succ, Z.testbit_0_l by lia. by destruct i.
Qed.

Lemma zeros_bits (n : nat) :
  map is_one (rev (list_ascii_of_string (zeros n))) = repeat false n.
Proof.
  induction n as [|n IH]; simpl; [reflexivity|].
  rewrite map_app, IH. simpl. clear. induction n; simpl; congruence.
Qed.

Lemma nth_app_falses (l : list bool) (k i : nat) :
  nth i (l ++ repeat false k)%list false = nth i l false.
Proof.
  destruct (Nat.lt_ge_cases i (length l)) as [H|H].
  - by rewrite app_nth1.
  - rewrite app_nth2 by lia. rewrite (nth_overflow l) by lia.
    apply nth_repeat.
Qed.

Lemma digits_bits (n : N) (i : nat) :
  nth i (map is_one (rev (list_ascii_of_string (bin_digits n)))) false
  = Z.testbit (Z.of_N n) (Z.of_nat i).
Proof.
  destruct n as [|p]; simpl.
  - rewrite Z.testbit_0_l. by destruct i as [|[|i]].
  - rewrite bin_digits_pos_bits. simpl. apply pos_bits_testbit.
Qed.

Lemma zfill_bits (w : nat) (s : string) (i : nat) :
  nth i (map is_one (rev (list_ascii_of_string (zfill w s)))) false
  = nth i (map is_one (rev (list_ascii_of_string s))) false.
Proof.
  unfold zfill. rewrite list_ascii_append, rev_app_distr, map_app, zeros_bits.
  apply nth_app_falses.
Qed.

(** X1: for every integer, negative ones included, the entry at position
    [i] of the decoded list is bit [i] of the absolute value (positions
    past the end count as false), and the list has at least four entries,
    so that [bits[3]] never fails. *)
Theorem int_to_bool_list_abs_bits (num : Z) (i : nat) :
  nth i (_int_to_bool_list num) false = Z.testbit (Z.abs num) (Z.of_nat i)
  /\ (4 <= length (_int_to_bool_list num))%nat.
Proof.
  split; [|apply int_to_bool_list_length].
  unfold _int_to_bool_list, format_04b. fold is_one.
  rewrite <- (N2Z.inj_abs_N num).
  destruct (num <? 0).
  - cbn [list_ascii_of_string rev]. rewrite map_app.
    change (map is_one ["-"%char]) with (repeat false 1).
    rewrite nth_app_falses, zfill_bits. apply digits_bits.
  - rewrite zfill_bits. apply digits_bits.
Qed.

(** ** What [write] refuses and what it registers *)

Lemma point_tag_dataset_cases (a : ndarray) :
  (tag_shaped a /\
   exists d, point_tag_dataset a = Ok (d, tag_type_of a)
             /\ ds_type d = tag_type_of a /\ dataset_value d = a) \/
  (~ tag_shaped a /\ point_tag_dataset a = Err ValueError).
Proof.
  destruct a as [dt sh d].
  unfold tag_shaped, ndim, point_tag_dataset, tag_type_of. simpl.
  destruct sh as [|n [|k [|? ?]]]; simpl.
  - right. split; [intros [?|?]; discriminate|reflexivity].
  - left. split; [by left|]. eexists. repeat split.
  - left. split; [by right|]. eexists. repeat split.
  - right. split; [intros [?|?]; discriminate|reflexivity].
Qed.

Lemma write_point_data_cases (point_data : gmap string ndarray) :
  (map_Forall (fun _ a => tag_shaped a) point_data /\
   exists t g, write_point_data point_data = Ok (t, g)
     /\ (forall key, ds_type <$> t !! key
                     = tag_type_of <$> point_data !! key)
     /\ g = registry_entry <$> point_data) \/
  (~ map_Forall (fun _ a => tag_shaped a) point_data /\
   write_point_data point_data = Err ValueError).
Proof.
  unfold write_point_data.
  apply (map_fold_weak_ind (fun r m =>
    (map_Forall (fun _ a => tag_shaped a) m /\
     exists t g, r = Ok (t, g)
       /\ (forall key, ds_type <$> t !! key
                       = tag_type_of <$> m !! key)
       /\ g = registry_entry <$> m) \/
    (~ map_Forall (fun _ a => tag_shaped a) m /\ r = Err ValueError))).
  - left. split; [apply map_Forall_empty|]. exists ∅, ∅.
    split; [reflexivity|]. split; [|by rewrite fmap_empty].
    intros key. by rewrite !lookup_empty.
  - intros i x m r Hi [[Hall (t & g & -> & Ht & ->)]|[Hbad ->]].
    + destruct (point_tag_dataset_cases x) as [[Hx (d & Hd & Hty & _)]|[Hx Hd]].
      * left. split; [by apply map_Forall_insert_2|].
        cbn [rbind]. rewrite Hd. cbn [rbind]. eexists _, _.
        split; [reflexivity|]. split.
        -- intros key. destruct (decide (i = key)) as [<-|Hne].
           ++ rewrite !lookup_insert_eq. simpl. by rewrite Hty.
           ++ rewrite !lookup_insert_ne by exact Hne. apply Ht.
        -- by rewrite fmap_insert.
      * right. split.
        -- intros Hall'. apply map_Forall_insert in Hall' as [? _]; auto.
        -- cbn [rbind]. by rewrite Hd.
    + right. split; [|reflexivity].
      intros Hall'. apply map_Forall_insert in Hall' as [_ ?]; auto.
Qed.

(** X2: a point tag that is neither flat nor n-by-k makes [write] raise
    ValueError ([n, k = data.shape]), whatever the cells are. *)
Theorem write_rejects_point_tag (version now : string)
    (points cells : ndarray) (pd : gmap string ndarray)
    (cell_data field_data : option (gmap string ndarray))
    (N : nat) (key : string) (a : ndarray) :
  len points = Ok N ->
  pd !! key = Some a ->
  ndim a <> 1%nat ->
  ndim a <> 2%nat ->
  write version now points cells (Some pd) cell_data field_data
  = Err ValueError.
Proof.
  intros HN Hkey H1 H2. unfold write. rewrite HN. cbn [rbind].
  destruct (write_point_data_cases pd) as [[Hall _]|[_ ->]]; [|reflexivity].
  exfalso. destruct (Hall key a Hkey); contradiction.
Qed.

(** X3: the global tag registry [tstt/tags] of a written container has
    one entry per point tag and no other (cell tags are not registered);
    each entry has class 2 and the type of the tag's dataset, a k-tuple
    type for an n-by-k array.  The nodes have a tag group exactly when
    [point_data] is not None. *)
Theorem write_registers_point_tags (version now : string)
    (points cells : ndarray)
    (point_data cell_data field_data : option (gmap string ndarray))
    (f : h5file) :
  write version now points cells point_data cell_data field_data = Ok f ->
  exists dset nodes_,
    tstt f = Some dset /\
    nodes dset = Some nodes_ /\
    tags dset = Some (registry_entry <$> default ∅ point_data) /\
    (nodes_tags nodes_ = None <-> point_data = None) /\
    forall t key, nodes_tags nodes_ = Some t ->
      ds_type <$> t !! key
      = tag_type_of <$> default ∅ point_data !! key.
Proof.
  unfold write. intros H.
  destruct (len points) as [N|]; [|discriminate]. cbn [rbind] in H.
  assert (Hpd : exists node_tags,
    match point_data with
    | Some pd => let* '(t, g) := write_point_data pd in Ok (Some t, g)
    | None => Ok (None, ∅)
    end = Ok (node_tags, registry_entry <$> default ∅ point_data)
    /\ (node_tags = None <-> point_data = None)
    /\ forall t key, node_tags = Some t ->
         ds_type <$> t !! key
         = tag_type_of <$> default ∅ point_data !! key).
  { destruct point_data as [pd|]; simpl.
    - destruct (write_point_data_cases pd)
        as [[_ (t & g & Hw & Ht & ->)]|[_ Hw]]; rewrite Hw in H;
        [|discriminate].
      exists (Some t). rewrite Hw. split; [reflexivity|].
      split; [split; discriminate|]. intros t' key [= <-]. apply Ht.
    - exists None. split; [by rewrite fmap_empty|]. split; [done|].
      discriminate. }
  destruct Hpd as (node_tags & Hpd & Hnone & Hty). rewrite Hpd in H.
  cbn [rbind] in H.
  destruct (shape_at cells 1) as [w|]; [|discriminate]. cbn [rbind] in H.
  destruct (h5m_type !! w) as [ty|]; [|discriminate]. cbn [rbind] in H.
  destruct (add_scalar cells 1) as [c1|]; [|discriminate]. cbn [rbind] in H.
  destruct (len cells) as [M|]; [|discriminate]. cbn [rbind] in H.
  injection H as <-. cbn [tstt nodes tags nodes_tags].
  eexists _, _. split; [reflexivity|]. split; [reflexivity|].
  split; [reflexivity|]. split; [exact Hnone|exact Hty].
Qed.



(** ** What [read] can raise *)

Section RaisesOnly.

Context (S : exn -> Prop).

Lemma raises_only_Ok {A} (a : A) : raises_only S (Ok a).
Proof. intros e H. discriminate H. Qed.

Lemma raises_only_Err {A} (e : exn) : S e -> raises_only S (@Err A e).
Proof. intros He e' [= <-]. exact He. Qed.

Lemma raises_only_rbind {A B} (r : result A) (k : A -> result B) :
  raises_only S r -> (forall a, raises_only S (k a)) ->
  raises_only S (rbind r k).
Proof.
  destruct r as [a|e]; simpl; intros Hr Hk; [apply Hk|].
  intros e' [= <-]. by apply Hr.
Qed.

End RaisesOnly.

Lemma raises_only_weaken {A} (S T : exn -> Prop) (r : result A) :
  (forall e, S e -> T e) -> raises_only S r -> raises_only T r.
Proof. intros HST Hr e He. apply HST, Hr, He. Qed.

Lemma getitem_raises {A} (l : list A) (i : nat) :
  raises_only row_error (getitem l i).
Proof.
  unfold getitem. destruct (l !! i); [apply raises_only_Ok|].
  apply raises_only_Err. by left.
Qed.

Lemma fill_runs_raises (cs ce : Z) (value : list Z) (k : nat)
    (runs : list (Z * Z)) (arr : list Z) :
  raises_only row_error (fill_runs cs ce value k arr runs).
Proof.
  revert arr. induction runs as [|[s l] runs IH]; intros arr; simpl.
  - apply raises_only_Ok.
  - destruct (_ && _); [|apply raises_only_Err; by right].
    apply raises_only_rbind; [apply getitem_raises|]. intros v. apply IH.
Qed.

Lemma index_assign_raises (arr idx : list Z) (v : Z) :
  raises_only row_error (index_assign arr idx v).
Proof.
  unfold index_assign. destruct (forallb _ idx); [apply raises_only_Ok|].
  apply raises_only_Err. by left.
Qed.

Lemma decode_row_raises (sets_contents value : list Z) (cs ce : Z)
    (arr : list Z) (end_ : Z) (k : nat) (row : list Z) :
  raises_only row_error
    (decode_row sets_contents value cs ce arr end_ k row).
Proof.
  unfold decode_row.
  apply raises_only_rbind; [apply getitem_raises|]. intros flags.
  apply raises_only_rbind; [apply getitem_raises|]. intros rc.
  apply raises_only_rbind; [apply getitem_raises|]. intros row0.
  apply raises_only_rbind; [|intros; apply raises_only_Ok].
  destruct rc; [apply fill_runs_raises|].
  apply raises_only_rbind; [apply getitem_raises|]. intros v.
  apply index_assign_raises.
Qed.

Lemma decode_rows_raises (sets_contents value : list Z) (cs ce : Z)
    (rows : list (list Z)) (arr : list Z) (end_ : Z) (k : nat) :
  raises_only row_error
    (decode_rows sets_contents value cs ce arr end_ k rows).
Proof.
  revert arr end_ k. induction rows as [|row rows IH]; intros arr end_ k; simpl.
  - apply raises_only_Ok.
  - apply raises_only_rbind; [apply decode_row_raises|].
    intros [arr' end']. apply IH.
Qed.

Lemma decode_sets_raises (junk : string -> nat -> Z) (cells : ndarray)
    (sets_contents : list Z) (sets_list : list (list Z))
    (sets_tags_ : gmap string (list Z)) (cs ce : Z)
    (cell_data : gmap string ndarray) :
  raises_only (fun e => e = TypeError \/ row_error e)
    (decode_sets junk cells sets_contents sets_list sets_tags_ cs ce
       cell_data).
Proof.
  unfold decode_sets.
  apply (map_fold_weak_ind (fun r (_ : gmap string (list Z)) =>
    raises_only (fun e => e = TypeError \/ row_error e) r)).
  - apply raises_only_Ok.
  - intros key value m r _ Hr.
    apply raises_only_rbind; [exact Hr|]. intros cd.
    apply raises_only_rbind.
    { unfold len. destruct (shape cells); [|apply raises_only_Ok].
      apply raises_only_Err. by left. }
    intros n. apply raises_only_rbind; [|intros; apply raises_only_Ok].
    eapply raises_only_weaken; [|apply decode_rows_raises]. auto.
Qed.




(** ** The assertion and the GLOBAL_ID tag *)

Lemma contiguous_run_from_zero (cs : Z) (ids : list Z) :
  contiguous_run cs (map (fun g => cs + g) ids)
  <-> ids = map Z.of_nat (seq 0 (length ids)).
Proof.
  unfold contiguous_run. split.
  - intros H. apply list_eq. intros i.
    destruct (ids !! i) as [g|] eqn:Hg.
    + pose proof (lookup_lt_Some _ _ _ Hg) as Hlt.
      rewrite list_lookup_fmap, lookup_seq_lt by exact Hlt. simpl.
      f_equal. specialize (H i (cs + g)).
      rewrite list_lookup_fmap, Hg in H. specialize (H eq_refl). lia.
    + apply lookup_ge_None in Hg.
      symmetry. apply lookup_ge_None. by rewrite length_map, length_seq.
  - intros Hids i g Hg. rewrite list_lookup_fmap in Hg.
    destruct (ids !! i) as [g0|] eqn:Hg0; [|discriminate].
    injection Hg as <-. pose proof (lookup_lt_Some _ _ _ Hg0) as Hlt.
    rewrite Hids, list_lookup_fmap, lookup_seq_lt in Hg0 by exact Hlt.
    injection Hg0 as <-. reflexivity.
Qed.

(** X6: [read] raises AssertionError (line 74) exactly when the
    GLOBAL_ID tag of the block is not 0, 1, ..., M - 1; the [start_id]
    added on both sides of the comparison plays no part. *)
Theorem assertion_wants_ids_from_zero (junk : string -> nat -> Z)
    (f : h5file) (si : sets_input) :
  sets_input_of f = Some si ->
  (read junk f = Err AssertionError
   <-> si_ids si <> map Z.of_nat (seq 0 (length (si_ids si)))).
Proof.
  intros Hsi. rewrite (read_from_assertion junk f si Hsi).
  pose proof (gids_contiguous_spec (si_start si) (cell_gids si)) as Hspec.
  fold (cell_end_gid si) in Hspec. unfold cell_gids in Hspec at 2.
  rewrite contiguous_run_from_zero in Hspec.
  destruct (gids_contiguous _ _ _).
  - split.
    + intros H. exfalso.
      destruct (decode_sets _ _ _ _ _ _ _ _) as [cd|e] eqn:Hdec;
        [discriminate H|].
      injection H as ->.
      destruct (decode_sets_raises _ _ _ _ _ _ _ _ _ Hdec)
        as [?|[?|?]]; discriminate.
    + intros H. destruct H. by apply Hspec.
  - split; [|reflexivity]. intros _ H. apply Hspec in H. discriminate.
Qed.

(** ** What the loop over the set tags leaves behind *)

Lemma fill_runs_length (cs ce : Z) (value : list Z) (k : nat)
    (runs : list (Z * Z)) (arr arr' : list Z) :
  fill_runs cs ce value k arr runs = Ok arr' -> length arr' = length arr.
Proof.
  revert arr. induction runs as [|[s l] runs IH]; intros arr; simpl.
  - by intros [= <-].
  - destruct (_ && _); [|discriminate].
    destruct (getitem value k) as [v|]; [|discriminate]. cbn [rbind].
    intros H. rewrite (IH _ H). apply slice_assign_length.
Qed.

Lemma index_assign_length (arr idx : list Z) (v : Z) (arr' : list Z) :
  index_assign arr idx v = Ok arr' -> length arr' = length arr.
Proof.
  unfold index_assign. destruct (forallb _ idx); [|discriminate].
  intros [= <-]. generalize (length arr) at 1 as n. intros n.
  revert arr. induction idx as [|i idx IH]; intros arr; simpl; [reflexivity|].
  by rewrite IH, length_insert.
Qed.

Lemma decode_row_length (sets_contents value : list Z) (cs ce : Z)
    (arr : list Z) (end_ : Z) (k : nat) (row : list Z) (arr' : list Z)
    (end' : Z) :
  decode_row sets_contents value cs ce arr end_ k row = Ok (arr', end') ->
  length arr' = length arr.
Proof.
  unfold decode_row.
  destruct (getitem row 3) as [flags|]; [|discriminate]. cbn [rbind].
  destruct (getitem _ 3) as [rc|]; [|discriminate]. cbn [rbind].
  destruct (getitem row 0) as [row0|]; [|discriminate]. cbn [rbind].
  destruct rc.
  - destruct (fill_runs _ _ _ _ _ _) as [a|] eqn:Hfill; [|discriminate].
    cbn [rbind]. intros [= <- _]. by apply fill_runs_length in Hfill.
  - destruct (getitem value k) as [v|]; [|discriminate]. cbn [rbind].
    destruct (index_assign _ _ _) as [a|] eqn:Hassign; [|discriminate].
    cbn [rbind]. intros [= <- _]. by apply index_assign_length in Hassign.
Qed.

Lemma decode_rows_length (sets_contents value : list Z) (cs ce : Z)
    (rows : list (list Z)) (arr : list Z) (end_ : Z) (k : nat)
    (arr' : list Z) :
  decode_rows sets_contents value cs ce arr end_ k rows = Ok arr' ->
  length arr' = length arr.
Proof.
  revert arr end_ k. induction rows as [|row rows IH]; intros arr end_ k; simpl.
  - by intros [= <-].
  - destruct (decode_row _ _ _ _ _ _ _ _) as [[a e]|] eqn:Hrow;
      [|discriminate].
    cbn [rbind]. intros H. rewrite (IH _ _ _ H).
    by apply decode_row_length in Hrow.
Qed.

(** What a successful loop over the set tags leaves in [cell_data]. *)
Lemma decode_sets_inv (junk : string -> nat -> Z) (cells : ndarray)
    (sets_contents : list Z) (sets_list : list (list Z)) (cs ce : Z)
    (cell_data : gmap string ndarray) (sets_tags_ : gmap string (list Z))
    (cell_data' : gmap string ndarray) :
  decode_sets junk cells sets_contents sets_list sets_tags_ cs ce cell_data
  = Ok cell_data' ->
  (forall key value, sets_tags_ !! key = Some value ->
     exists n arr,
       len cells = Ok n /\
       decode_rows sets_contents value cs ce
         (data (numpy_empty (junk (set_key key)) n)) 0 0 sets_list = Ok arr /\
       cell_data' !! set_key key
       = Some {| adtype := Int 64; shape := [n]; data := arr |}) /\
  (forall name, map_Forall (fun key _ => name <> set_key key) sets_tags_ ->
     cell_data' !! name = cell_data !! name).
Proof.
  unfold decode_sets. revert cell_data'.
  apply (map_fold_weak_ind (fun r (m : gmap string (list Z)) =>
    forall cell_data', r = Ok cell_data' ->
    (forall key value, m !! key = Some value ->
       exists n arr,
         len cells = Ok n /\
         decode_rows sets_contents value cs ce
           (data (numpy_empty (junk (set_key key)) n)) 0 0 sets_list = Ok arr
         /\ cell_data' !! set_key key
            = Some {| adtype := Int 64; shape := [n]; data := arr |}) /\
    (forall name, map_Forall (fun key _ => name <> set_key key) m ->
       cell_data' !! name = cell_data !! name))).
  - intros cd' [= <-]. split; [|reflexivity].
    intros key value H. by rewrite lookup_empty in H.
  - intros key value m r Hfresh IH cd' H.
    destruct r as [cd|]; [|discriminate]. cbn [rbind] in H.
    destruct (len cells) as [n|] eqn:Hn; [|discriminate]. cbn [rbind] in H.
    destruct (decode_rows _ _ _ _ _ _ _ _) as [arr|] eqn:Harr;
      [|discriminate].
    cbn [rbind] in H. injection H as <-.
    destruct (IH cd eq_refl) as [Hkeys Hother]. split.
    + intros key' value' H'. destruct (decide (key = key')) as [<-|Hne].
      * rewrite lookup_insert_eq in H'. injection H' as <-.
        exists n, arr. split; [reflexivity|]. split; [exact Harr|].
        apply lookup_insert_eq.
      * rewrite lookup_insert_ne in H' by exact Hne.
        destruct (Hkeys key' value' H') as (n' & arr' & Hn' & Harr' & Hcd).
        exists n', arr'. split; [exact Hn'|]. split; [exact Harr'|].
        rewrite lookup_insert_ne; [exact Hcd|].
        intros Heq. apply Hne. by apply set_key_inj.
    + intros name Hname.
      apply map_Forall_insert in Hname as [Hk Hm]; [|exact Hfresh].
      rewrite lookup_insert_ne by congruence. by apply Hother.
Qed.

Lemma read_sets_stage (junk : string -> nat -> Z) (f : h5file)
    (si : sets_input) (m : mesh) :
  sets_input_of f = Some si ->
  read junk f = Ok m ->
  exists cell_data,
    decode_sets junk (si_cells si) (si_contents si) (si_list si)
      (si_tags si) (si_start si) (cell_end_gid si) (si_cell_data si)
    = Ok cell_data /\
    m = (si_points si, si_cells si, si_point_data si, cell_data, ∅).
Proof.
  intros Hsi. rewrite (read_from_assertion junk f si Hsi).
  destruct (gids_contiguous _ _ _); [|discriminate].
  destruct (decode_sets _ _ _ _ _ _ _ _) as [cd|]; [|discriminate].
  cbn [rbind]. intros [= <-]. eauto.
Qed.

(** X7: whenever [read] returns, every set tag has given an array of
    [len(cells)] 64-bit integers under ['set::' + tag], whatever the rows
    are. *)
Theorem set_arrays_have_one_slot_per_cell (junk : string -> nat -> Z)
    (f : h5file) (si : sets_input) (m : mesh) (key : string)
    (value : list Z) :
  sets_input_of f = Some si ->
  read junk f = Ok m ->
  si_tags si !! key = Some value ->
  exists M arr,
    len (si_cells si) = Ok M /\
    mesh_cell_data m !! set_key key
    = Some {| adtype := Int 64; shape := [M]; data := arr |} /\
    length arr = M.
Proof.
  intros Hsi Hread Hkey.
  destruct (read_sets_stage junk f si m Hsi Hread) as (cd & Hdec & ->).
  destruct (decode_sets_inv _ _ _ _ _ _ _ _ _ Hdec) as [Hkeys _].
  destruct (Hkeys key value Hkey) as (n & arr & Hn & Harr & Hcd).
  exists n, arr. split; [exact Hn|]. split; [exact Hcd|].
  apply decode_rows_length in Harr. rewrite Harr. simpl.
  by rewrite length_map, length_seq.
Qed.

(** X8: decoding the sets leaves every tag of the element block as it
    was read, unless its name is ['set::' + tag] for one of the set
    tags. *)
Theorem sets_keep_element_tags (junk : string -> nat -> Z)
    (f : h5file) (si : sets_input) (m : mesh) (name : string) :
  sets_input_of f = Some si ->
  read junk f = Ok m ->
  (forall key, is_Some (si_tags si !! key) -> name <> set_key key) ->
  mesh_cell_data m !! name = si_cell_data si !! name.
Proof.
  intros Hsi Hread Hname.
  destruct (read_sets_stage junk f si m Hsi Hread) as (cd & Hdec & ->).
  destruct (decode_sets_inv _ _ _ _ _ _ _ _ _ Hdec) as [_ Hother].
  apply Hother. intros key value Hkey. apply Hname. eauto.
Qed.


(** ** Cells that some row covers *)

Lemma label_covered (sets_contents value : list Z) (cs : Z) (j : nat)
    (rows : list (list Z)) (cur1 cur2 end_ : Z) (k : nat) :
  (exists i row, rows !! i = Some row /\
     row_covers sets_contents cs (cursor_from end_ rows i) row j = true) ->
  label sets_contents value cs j cur1 end_ k rows
  = label sets_contents value cs j cur2 end_ k rows.
Proof.
  revert cur1 cur2 end_ k.
  induction rows as [|row rest IH]; intros cur1 cur2 end_ k (i & r & Hi & Hc).
  - discriminate Hi.
  - simpl. destruct (row_covers sets_contents cs end_ row j) eqn:Hhead;
      [reflexivity|].
    apply IH. destruct i as [|i].
    + simpl in Hi, Hc. injection Hi as ->. congruence.
    + exists i, r. split; [exact Hi|].
      by rewrite <- (cursor_from_cons end_).
Qed.

(** X10: when the rows name cells of the block only and every cell is
    covered by some row, what [read] returns does not depend on the
    memory [numpy.empty] hands out. *)
Theorem covered_cells_hide_memory (junk1 junk2 : string -> nat -> Z)
    (f : h5file) (si : sets_input) (M : nat) :
  sets_input_of f = Some si ->
  contiguous_run (si_start si) (cell_gids si) ->
  len (si_cells si) = Ok M ->
  length (si_ids si) = M ->
  rows_in_block (si_contents si) (si_start si) M (si_list si) ->
  (forall key value, si_tags si !! key = Some value ->
     (length (si_list si) <= length value)%nat) ->
  (forall j, (j < M)%nat ->
     exists k row, si_list si !! k = Some row /\
       row_covers (si_contents si) (si_start si) (cursor (si_list si) k)
         row j = true) ->
  read junk1 f = read junk2 f.
Proof.
  intros Hsi Hrun Hlen Hids Hrows Hvals Hcov.
  destruct (read_sets_labels junk1 f si M Hsi Hrun Hlen Hids Hrows Hvals)
    as (cd1 & Hread1 & Hcd1).
  destruct (read_sets_labels junk2 f si M Hsi Hrun Hlen Hids Hrows Hvals)
    as (cd2 & Hread2 & Hcd2).
  rewrite Hread1, Hread2. do 2 f_equal. f_equal. apply map_eq. intros name.
  destruct (decide (map_Exists (fun key _ => name = set_key key) (si_tags si)))
    as [(key & value & Hkey & ->)|Hno].
  - destruct (Hcd1 key value Hkey) as (arr1 & -> & Hl1 & Hlab1).
    destruct (Hcd2 key value Hkey) as (arr2 & -> & Hl2 & Hlab2).
    do 2 f_equal. apply list_eq. intros j.
    destruct (Nat.lt_ge_cases j M) as [Hj|Hj].
    + rewrite (Hlab1 j Hj), (Hlab2 j Hj). f_equal.
      apply label_covered. exact (Hcov j Hj).
    + rewrite !(proj2 (lookup_ge_None _ _)) by lia. reflexivity.
  - apply map_not_Exists in Hno.
    destruct (read_sets_stage junk1 f si _ Hsi Hread1) as (c1 & Hdec1 & Heq1).
    destruct (read_sets_stage junk2 f si _ Hsi Hread2) as (c2 & Hdec2 & Heq2).
    injection Heq1 as <-. injection Heq2 as <-.
    rewrite (proj2 (decode_sets_inv _ _ _ _ _ _ _ _ _ Hdec1) name Hno).
    by rewrite (proj2 (decode_sets_inv _ _ _ _ _ _ _ _ _ Hdec2) name Hno).
Qed.

(** ** Reading, writing and reading again *)







(** ** The part of [sets/contents] the rows read *)

Lemma py_slice_prefix {A} (l l' : list A) (n : nat) (a b : Z) :
  (n <= length l)%nat -> (n <= length l')%nat ->
  take n l = take n l' ->
  0 <= a -> 0 <= b <= Z.of_nat n ->
  py_slice l a b = py_slice l' a b.
Proof.
  intros Hl Hl' Htake Ha [Hb Hbn]. unfold py_slice, slice_index.
  rewrite (proj2 (Z.ltb_ge a 0)), (proj2 (Z.ltb_ge b 0)) by lia.
  rewrite !(Z.min_l b) by lia.
  destruct (Z.le_gt_cases b a) as [Hba|Hab].
  - replace (Z.to_nat b - Z.to_nat (a `min` Z.of_nat (length l)))%nat
      with 0%nat by lia.
    replace (Z.to_nat b - Z.to_nat (a `min` Z.of_nat (length l')))%nat
      with 0%nat by lia.
    reflexivity.
  - rewrite !(Z.min_l a) by lia. rewrite !take_drop_commute.
    replace (Z.to_nat a + (Z.to_nat b - Z.to_nat a))%nat
      with (Z.to_nat b) by lia.
    assert (Hb' : take (Z.to_nat b) l = take (Z.to_nat b) l').
    { rewrite <- (Nat.min_l (Z.to_nat b) n) by lia.
      by rewrite <- !take_take, Htake. }
    by rewrite Hb'.
Qed.

Lemma decode_row_prefix (contents contents' value : list Z) (cs ce : Z)
    (n : nat) (arr : list Z) (end_ : Z) (k : nat) (row : list Z) :
  (n <= length contents)%nat -> (n <= length contents')%nat ->
  take n contents = take n contents' ->
  0 <= end_ ->
  -1 <= row_end row < Z.of_nat n ->
  decode_row contents value cs ce arr end_ k row
  = decode_row contents' value cs ce arr end_ k row.
Proof.
  intros Hl Hl' Htake He Hrow. unfold decode_row.
  destruct (getitem row 3) as [flags|]; [|reflexivity]. cbn [rbind].
  destruct (getitem _ 3) as [rc|]; [|reflexivity]. cbn [rbind].
  unfold getitem. destruct (row !! 0%nat) as [row0|] eqn:H0; [|reflexivity].
  cbn [rbind]. unfold row_end in Hrow.
  rewrite (nth_lookup_Some _ _ 0 _ H0) in Hrow. unfold py_slice2.
  rewrite (py_slice_prefix contents contents' n end_ (row0 + 1))
    by (assumption || lia).
  rewrite (py_slice_prefix contents contents' n (end_ + 1) (row0 + 1))
    by (assumption || lia).
  reflexivity.
Qed.

(** X12: with row ends from -1 up to n - 1, the loop over the rows never
    looks at [sets/contents] beyond its first n entries: two arrays that
    agree on them decode alike. *)
Theorem rows_read_contents_up_to_last_end (contents contents' value : list Z)
    (cs ce : Z) (n : nat) (rows : list (list Z)) (arr : list Z) (k : nat) :
  (n <= length contents)%nat -> (n <= length contents')%nat ->
  take n contents = take n contents' ->
  Forall (fun row => -1 <= row_end row < Z.of_nat n) rows ->
  decode_rows contents value cs ce arr 0 k rows
  = decode_rows contents' value cs ce arr 0 k rows.
Proof.
  intros Hl Hl' Htake Hrows.
  assert (H0 : 0 <= 0) by lia. revert H0. generalize 0 at 2 3 4 as end_.
  intros end_ H0. revert arr end_ k H0.
  induction Hrows as [|row rows Hrow _ IH]; intros arr end_ k He; simpl.
  - reflexivity.
  - rewrite (decode_row_prefix contents contents' value cs ce n arr end_ k row
               Hl Hl' Htake He Hrow).
    destruct (decode_row contents' value cs ce arr end_ k row)
      as [[arr' end']|] eqn:Hdec; [|reflexivity].
    cbn [rbind]. apply IH.
    apply decode_row_cursor in Hdec. lia.
Qed.

(** ** The tags of the element block *)

(** X13: the element block of a written container has a tag group
    exactly when [cell_data] is a non-empty dictionary, and it holds
    every cell tag as it was given, with its own dtype and shape: an
    n-by-k cell tag is not turned into a tuple type as a point tag is. *)
Theorem write_stores_cell_tags_as_given (version now : string)
    (points cells : ndarray)
    (point_data cell_data field_data : option (gmap string ndarray))
    (f : h5file) :
  write version now points cells point_data cell_data field_data = Ok f ->
  exists dset name elems,
    tstt f = Some dset /\
    elements dset = Some {[name := elems]} /\
    match elem_tags elems with
    | None => default ∅ cell_data = ∅
    | Some t =>
        default ∅ cell_data <> ∅ /\
        t = create_dataset <$> default ∅ cell_data
    end.
Proof.
  unfold write. intros H.
  repeat
    match type of H with
    | rbind ?r _ = _ =>
        let a := fresh "a" in
        destruct r as [a|]; [cbn [rbind] in H|discriminate H]
    end.
  match type of H with
  | context [let '(node_tags, tstt_tags) := ?x in _] => destruct x
  end.
  repeat
    match type of H with
    | rbind ?r _ = _ =>
        let a := fresh "a" in
        destruct r as [a|]; [cbn [rbind] in H|discriminate H]
    end.
  injection H as <-. cbn [tstt elements elem_tags].
  eexists _, _, _. split; [reflexivity|]. split; [reflexivity|].
  cbn [elem_tags]. destruct cell_data as [cd|]; [|reflexivity].
  change (default ∅ (Some cd)) with cd.
  destruct (decide (size cd = 0%nat)) as [Hz|Hz].
  - by apply map_size_empty_inv.
  - split; [|apply write_cell_data_fmap].
    intros ->. apply Hz. apply map_size_empty.
Qed.

(** ** The further properties on the examples *)

Lemma write_rejects_point_tag_witness :
  write "1.0" "now" ex_points ex_cells (Some {["w" := ex_volume_tag]})
    None None = Err ValueError.
Proof.
  apply (write_rejects_point_tag "1.0" "now" ex_points ex_cells
           {["w" := ex_volume_tag]} None None 4 "w" ex_volume_tag).
  - reflexivity.
  - apply lookup_singleton_eq.
  - vm_compute. discriminate.
  - vm_compute. discriminate.
Defined.

Lemma write_registers_point_tags_witness :
  exists f dset,
    write "1.0" "now" ex_points ex_cells (Some ex_point_data)
      (Some ex_cell_data) None = Ok f /\
    tstt f = Some dset /\
    tags dset = Some (registry_entry <$> ex_point_data).
Proof.
  destruct (write "1.0" "now" ex_points ex_cells (Some ex_point_data)
              (Some ex_cell_data) None) as [f|e] eqn:Hw;
    [|vm_compute in Hw; discriminate Hw].
  destruct (write_registers_point_tags _ _ _ _ _ _ _ f Hw)
    as (dset & nodes_ & Ht & _ & Hreg & _).
  exists f, dset. auto.
Defined.



Lemma assertion_wants_ids_from_zero_witness :
  read sevens one_based_file = Err AssertionError
  <-> [1; 2; 3] <> map Z.of_nat (seq 0 3).
Proof.
  exact (assertion_wants_ids_from_zero sevens one_based_file _
           (partition_input_of _ _ _ _)).
Defined.

Lemma run_file_read : read sevens run_file = Ok run_mesh.
Proof. vm_compute. reflexivity. Defined.

Lemma set_arrays_have_one_slot_per_cell_witness :
  exists M arr,
    len ex_cells = Ok M /\
    mesh_cell_data run_mesh !! "set::P"
    = Some {| adtype := Int 64; shape := [M]; data := arr |} /\
    length arr = M.
Proof.
  exact (set_arrays_have_one_slot_per_cell sevens run_file _ run_mesh
           "P" [9] (partition_input_of _ _ _ _) run_file_read
           (lookup_singleton_eq _ _)).
Defined.

Lemma sets_keep_element_tags_witness :
  mesh_cell_data run_mesh !! "GLOBAL_ID"
  = Some {| adtype := Int 64; shape := [3%nat]; data := [0; 1; 2] |}.
Proof.
  rewrite (sets_keep_element_tags sevens run_file _ run_mesh "GLOBAL_ID"
             (partition_input_of _ _ _ _) run_file_read).
  - apply lookup_singleton_eq.
  - intros key _ H. discriminate H.
Defined.


Lemma covered_cells_hide_memory_witness :
  read sevens full_run_file = read (fun _ _ => 0) full_run_file.
Proof.
  apply (covered_cells_hide_memory sevens (fun _ _ => 0) full_run_file
           (partition_input [0; 1; 2] [5; 3] [[1; -1; -1; 10]]
              {["P" := [9]]}) 3
           (partition_input_of _ _ _ _)
           (ids_from_zero_contiguous _ _ _) eq_refl eq_refl).
  - intros [|i] row Hi; [|discriminate Hi]. injection Hi as <-.
    split; [simpl; lia|]. vm_compute. repeat constructor; discriminate.
  - apply one_tag_long_enough.
  - intros j Hj. exists 0%nat, [1; -1; -1; 10]. split; [reflexivity|].
    destruct j as [|[|[|j]]]; [reflexivity|reflexivity|reflexivity|lia].
Defined.


Lemma rows_read_contents_up_to_last_end_witness :
  decode_rows [5; 2] [9] 5 7 [7; 7; 7] 0 0 [[1; -1; -1; 10]]
  = decode_rows [5; 2; 99] [9] 5 7 [7; 7; 7] 0 0 [[1; -1; -1; 10]].
Proof.
  apply (rows_read_contents_up_to_last_end [5; 2] [5; 2; 99] [9] 5 7 2
           [[1; -1; -1; 10]] [7; 7; 7] 0).
  - simpl. lia.
  - simpl. lia.
  - reflexivity.
  - apply Forall_cons_2; [unfold row_end; simpl; lia|apply Forall_nil_2].
Defined.

Lemma write_stores_cell_tags_as_given_witness :
  exists f dset name elems,
    write "1.0" "now" ex_points ex_cells None (Some ex_cell_data) None
    = Ok f /\
    tstt f = Some dset /\
    elements dset = Some {[name := elems]} /\
    elem_tags elems = Some (create_dataset <$> ex_cell_data).
Proof.
  destruct (write "1.0" "now" ex_points ex_cells None (Some ex_cell_data)
              None) as [f|e] eqn:Hw; [|vm_compute in Hw; discriminate Hw].
  destruct (write_stores_cell_tags_as_given _ _ _ _ _ _ _ f Hw)
    as (dset & name & elems & Ht & He & Htags).
  exists f, dset, name, elems. split; [reflexivity|].
  split; [exact Ht|]. split; [exact He|].
  destruct (elem_tags elems) as [t|].
  - destruct Htags as [_ ->]. reflexivity.
  - exfalso. apply (f_equal (fun m => m !! "a")) in Htags.
    vm_compute in Htags. discriminate Htags.
Defined.
